(** * PandaBot database inspection scripts: a shallow embedding

    The repository holds four stand-alone Python scripts that inspect a
    PostgreSQL store (through psycopg2) or its REST gateway (through
    requests):

    - [find_crafting.py]   tag search on [public.codex], with a port fallback;
    - [discover_schema.py] catalog introspection;
    - [sample_data.py]     sample fetch and per-section counts;
    - [sample_data_api.py] the same sampling over HTTP.

    The scripts are straight-line code over an external store.  The store
    is modelled as a [world]: the outcome of each connection attempt, the
    contents of the database, and the faults raised by individual
    statements.  A script is a computation in a small exception monad that
    records every interaction with the store and every data-bearing line of
    output in a trace. *)

From Stdlib Require Import String Ascii ZArith Lia Bool Sorted Permutation.
From stdpp Require Import gmap strings list.

Set Warnings "-register-all".
Local Open Scope string_scope.
Local Open Scope list_scope.

(** ** Strings *)

Module Str.

(** The double-quote character, written through its code. *)
Definition dq : string := String (ascii_of_nat 34) EmptyString.

(** A line break inside a triple-quoted Python string. *)
Definition nl : string := String (ascii_of_nat 10) EmptyString.

(** [needle in hay] of Python, on strings. *)
Fixpoint is_substring (needle hay : string) : bool :=
  String.prefix needle hay ||
  match hay with
  | EmptyString => false
  | String _ rest => is_substring needle rest
  end.

(** [c.lower()] on the ASCII range. *)
Definition lower_ascii (c : ascii) : ascii :=
  let n := nat_of_ascii c in
  if (65 <=? n)%nat && (n <=? 90)%nat then ascii_of_nat (n + 32) else c.

Fixpoint lower (s : string) : string :=
  match s with
  | EmptyString => EmptyString
  | String c rest => String (lower_ascii c) (lower rest)
  end.

End Str.

(** ** JSON documents *)

Inductive json : Type :=
  | JNull
  | JBool (b : bool)
  | JNum (z : Z)
  | JStr (s : string)
  | JArr (items : list json)
  | JObj (members : list (string * json)).

(** A [data] cell as it travels on the wire: the driver hands a parsed
    document to the script, or raises while parsing the cell. *)
Inductive wire_json : Type :=
  | WellFormed (j : json)
  | Malformed (raw : string).

Module Json.

Definition is_scalar (j : json) : bool :=
  match j with
  | JArr _ | JObj _ => false
  | _ => true
  end.

(** Equality of scalar values; containers are never equal as scalars. *)
Definition scalar_eqb (a b : json) : bool :=
  match a, b with
  | JNull, JNull => true
  | JBool x, JBool y => Bool.eqb x y
  | JNum x, JNum y => (x =? y)%Z
  | JStr x, JStr y => (x =? y)%string
  | _, _ => false
  end.

Fixpoint assoc (k : string) (kv : list (string * json)) : option json :=
  match kv with
  | [] => None
  | (k', v) :: rest => if (k =? k')%string then Some v else assoc k rest
  end.

(** [data -> 'key'] of PostgreSQL and [data[key]] of Python: the member
    of an object, nothing on any other value. *)
Definition field (j : json) (k : string) : option json :=
  match j with
  | JObj kv => assoc k kv
  | _ => None
  end.

(** Structural containment of jsonb below the top level: scalars by
    equality, an array when every element of the right side is contained
    in some element of the left side, an object when every member of the
    right side is contained in the member of the same key.  Values of
    different kinds never contain one another. *)
Fixpoint contains (a b : json) {struct b} : bool :=
  match b with
  | JArr ys =>
      match a with
      | JArr xs => forallb (fun y => existsb (fun x => contains x y) xs) ys
      | _ => false
      end
  | JObj ms =>
      match a with
      | JObj kv =>
          forallb (fun m => match assoc (fst m) kv with
                            | Some x => contains x (snd m)
                            | None => false
                            end) ms
      | _ => false
      end
  | _ => scalar_eqb a b
  end.

(** [a @> b]: as [contains], with the one exception that a top-level
    array contains a bare scalar equal to one of its elements. *)
Definition jsonb_contains (a b : json) : bool :=
  match a with
  | JArr xs => if is_scalar b then existsb (fun x => scalar_eqb x b) xs
               else contains a b
  | _ => contains a b
  end.

End Json.

(** ** The store *)

(** A row of [public.codex]. *)
Record codex_row : Type := CodexRow {
  guid : string;
  section : string;
  data : wire_json
}.

(** A row of [information_schema.tables]. *)
Record table_entry : Type := TableEntry {
  table_schema : string;
  table_name : string
}.

(** A row of [information_schema.columns]; [column_default] is SQL NULL
    ([None]) for a column that declares no default. *)
Record column_entry : Type := ColumnEntry {
  col_schema : string;
  col_table : string;
  ordinal_position : nat;
  column_name : string;
  data_type : string;
  is_nullable : string;
  column_default : option string
}.

Record database : Type := Database {
  codex : list codex_row;
  tables : list table_entry;
  columns : list column_entry
}.

(** Exceptions the scripts can meet; all derive from Python's [Exception].
    [SystemExit], which does not, is a separate outcome (see [result]). *)
Inductive exn : Type :=
  | OperationalError
  | InterfaceError
  | ProgrammingError
  | ValueError
  | AttributeError
  | TypeError.

(** What a statement leaves in the cursor. *)
Inductive rowset : Type :=
  | CountRow (n : nat)
  | CodexRows (rows : list codex_row)
  | SectionRows (rows : list string)
  | TableRows (rows : list (string * string))
  | ColumnRows (rows : list (string * string * string * option string)).

Module Sql.

Import Str.

(** *** Statement texts, as the scripts spell them *)

(** find_crafting.py, lines 23-29. *)
Definition crafting : string :=
  nl ++
  "        SELECT guid, section, data " ++ nl ++
  "        FROM public.codex " ++ nl ++
  "        WHERE section = 'items' " ++ nl ++
  "        AND data->'gameplayTags' @> '[" ++ dq ++ "Artisanship.Crafting" ++ dq ++ "]'::jsonb" ++ nl ++
  "        LIMIT 5" ++ nl ++
  "    ".

(** find_crafting.py line 57, sample_data.py line 48. *)
Definition distinct_sections : string :=
  "SELECT DISTINCT section FROM public.codex ORDER BY section".

(** sample_data.py, line 27. *)
Definition count_all : string := "SELECT COUNT(*) FROM public.codex".

(** sample_data.py, line 32. *)
Definition sample : string :=
  "SELECT guid, section, data FROM public.codex LIMIT 5".

(** sample_data.py, line 53. *)
Definition count_section : string :=
  "SELECT COUNT(*) FROM public.codex WHERE section = %s".

(** discover_schema.py, lines 19-24. *)
Definition list_tables : string :=
  nl ++
  "    SELECT table_schema, table_name " ++ nl ++
  "    FROM information_schema.tables " ++ nl ++
  "    WHERE table_schema NOT IN ('pg_catalog', 'information_schema')" ++ nl ++
  "    ORDER BY table_schema, table_name;" ++ nl.

(** discover_schema.py, lines 38-47. *)
Definition list_columns : string :=
  nl ++
  "        SELECT " ++ nl ++
  "            column_name, " ++ nl ++
  "            data_type, " ++ nl ++
  "            is_nullable," ++ nl ++
  "            column_default" ++ nl ++
  "        FROM information_schema.columns " ++ nl ++
  "        WHERE table_schema = %s AND table_name = %s" ++ nl ++
  "        ORDER BY ordinal_position;" ++ nl ++
  "    ".

(** *** ORDER BY: a stable insertion sort under a boolean order *)

Section OrderBy.
Context {A : Type} (le : A -> A -> bool).

Fixpoint insert_sorted (x : A) (l : list A) : list A :=
  match l with
  | [] => [x]
  | y :: rest => if le x y then x :: l else y :: insert_sorted x rest
  end.

Fixpoint order_by (l : list A) : list A :=
  match l with
  | [] => []
  | x :: rest => insert_sorted x (order_by rest)
  end.

(** The order as a relation. *)
Definition le_prop (a b : A) : Prop := le a b = true.
End OrderBy.

(** Identifiers of the catalog compare byte-wise. *)
Definition table_le (a b : table_entry) : bool :=
  if (table_schema a =? table_schema b)%string
  then (table_name a <=? table_name b)%string
  else (table_schema a <=? table_schema b)%string.

Definition column_le (a b : column_entry) : bool :=
  (ordinal_position a <=? ordinal_position b)%nat.

(** *** WHERE clauses *)

(** [table_schema NOT IN ('pg_catalog', 'information_schema')]. *)
Definition user_schema (t : table_entry) : bool :=
  negb ((table_schema t =? "pg_catalog")%string
        || (table_schema t =? "information_schema")%string).

(** [table_schema = %s AND table_name = %s]. *)
Definition column_of (schema table : string) (c : column_entry) : bool :=
  (col_schema c =? schema)%string && (col_table c =? table)%string.

(** [data -> field @> '[tag]'::jsonb]; NULL, which the WHERE clause
    treats as false, when the payload has no such member. *)
Definition tag_contains (field tag : string) (d : wire_json) : bool :=
  match d with
  | WellFormed j =>
      match Json.field j field with
      | Some v => Json.jsonb_contains v (JArr [JStr tag])
      | None => false
      end
  | Malformed _ => false
  end.

Definition tagged (sec field tag : string) (r : codex_row) : bool :=
  (section r =? sec)%string && tag_contains field tag (data r).

(** *** The SELECT statements *)

Definition select_tagged (db : database) (sec field tag : string)
    (limit : nat) : list codex_row :=
  take limit (List.filter (tagged sec field tag) (codex db)).

Definition select_sample (db : database) (limit : nat) : list codex_row :=
  take limit (codex db).

Definition select_distinct_sections (db : database) : list string :=
  order_by String.leb (remove_dups (map section (codex db))).

Definition select_count (db : database) (sec : string) : nat :=
  length (List.filter (fun r => (section r =? sec)%string) (codex db)).

Definition select_tables (db : database) : list table_entry :=
  order_by table_le (List.filter user_schema (tables db)).

Definition select_columns (db : database) (schema table : string)
    : list column_entry :=
  order_by column_le (List.filter (column_of schema table) (columns db)).

Definition table_row (t : table_entry) : string * string :=
  (table_schema t, table_name t).

Definition column_row (c : column_entry)
    : string * string * string * option string :=
  (column_name c, data_type c, is_nullable c, column_default c).

(** *** The store's answer to a statement

    The store recognises the statements of the four scripts; any other
    text, or a wrong number of arguments for the placeholders, is
    rejected. *)
Definition run (db : database) (sql : string) (params : list string)
    : exn + rowset :=
  if (sql =? crafting)%string then
    match params with
    | [] => inr (CodexRows
              (select_tagged db "items" "gameplayTags" "Artisanship.Crafting" 5))
    | _ => inl ProgrammingError
    end
  else if (sql =? distinct_sections)%string then
    match params with
    | [] => inr (SectionRows (select_distinct_sections db))
    | _ => inl ProgrammingError
    end
  else if (sql =? count_all)%string then
    match params with
    | [] => inr (CountRow (length (codex db)))
    | _ => inl ProgrammingError
    end
  else if (sql =? sample)%string then
    match params with
    | [] => inr (CodexRows (select_sample db 5))
    | _ => inl ProgrammingError
    end
  else if (sql =? count_section)%string then
    match params with
    | [sec] => inr (CountRow (select_count db sec))
    | _ => inl ProgrammingError
    end
  else if (sql =? list_tables)%string then
    match params with
    | [] => inr (TableRows (map table_row (select_tables db)))
    | _ => inl ProgrammingError
    end
  else if (sql =? list_columns)%string then
    match params with
    | [schema; table] =>
        inr (ColumnRows (map column_row (select_columns db schema table)))
    | _ => inl ProgrammingError
    end
  else inl ProgrammingError.

End Sql.

(** ** The world a script runs in *)

(** [connect_fault] is the outcome of [psycopg2.connect] on a port, [None]
    when it connects; [store] is the content of the database;
    [statement_fault] is the exception raised by the n-th [execute] of the
    run, counted from 0, if any. *)
Record world : Type := World {
  connect_fault : Z -> option exn;
  store : database;
  statement_fault : nat -> option exn
}.

(** ** Traces *)

(** Data-bearing lines of standard output.  A line that interpolates only
    strings carries its full text; a line that interpolates a number, a
    JSON value or an exception keeps it as a value.  Rules made of
    repeated ["="] or ["-"] are left out. *)
Inductive output : Type :=
  | Say (text : string)
  | SayNum (before : string) (n : nat) (after : string)
  | SayValue (before : string) (v : json)
  | SayErr (before : string) (e : exn)
  | Traceback (e : exn).

Inductive event : Type :=
  | Connect (port : Z) (failure : option exn)
  | OpenCursor (port : Z)
  | Execute (port : Z) (sql : string) (params : list string)
  | CloseCursor (port : Z)
  | Close (port : Z)
  | HttpGet (url : string)
  | Out (o : output).

(** ** The script monad *)

Record state : Type := State {
  trace : list event;
  issued : nat;
  pending : option rowset
}.

Definition initial : state := State [] 0 None.

(** How a computation ends: with a value, with a raised [Exception], or
    with [sys.exit], which no [except Exception] clause intercepts. *)
Inductive result (A : Type) : Type :=
  | Return (a : A)
  | Raise (e : exn)
  | Exit (code : Z).

Arguments Return {A} a.
Arguments Raise {A} e.
Arguments Exit {A} code.

Definition M (A : Type) : Type := state -> result A * state.

Definition ret {A} (a : A) : M A := fun st => (Return a, st).

Definition bind {A B} (m : M A) (k : A -> M B) : M B :=
  fun st =>
    match m st with
    | (Return a, st') => k a st'
    | (Raise e, st') => (Raise e, st')
    | (Exit c, st') => (Exit c, st')
    end.

Definition raise {A} (e : exn) : M A := fun st => (Raise e, st).

(** [sys.exit(code)]. *)
Definition sys_exit {A} (code : Z) : M A := fun st => (Exit code, st).

Definition log (e : event) (st : state) : state :=
  State (trace st ++ [e]) (issued st) (pending st).

Definition emit (e : event) : M unit := fun st => (Return tt, log e st).

Definition print (o : output) : M unit := emit (Out o).

(** [try: body except Exception as e: handler e].  A handler that names a
    narrower class re-raises what it does not match. *)
Definition try_except {A} (body : M A) (handler : exn -> M A) : M A :=
  fun st =>
    match body st with
    | (Raise e, st') => handler e st'
    | other => other
    end.

(** [try: body finally: cleanup]. *)
Definition try_finally {A} (body : M A) (cleanup : M unit) : M A :=
  fun st =>
    match body st with
    | (r, st') =>
        match cleanup st' with
        | (Return _, st'') => (r, st'')
        | (Raise e, st'') => (Raise e, st'')
        | (Exit c, st'') => (Exit c, st'')
        end
    end.

Declare Scope script_scope.
Delimit Scope script_scope with script.
Notation "x <- m ;; k" := (bind m (fun x => k))
  (at level 100, m at next level, k at level 200, right associativity)
  : script_scope.
Notation "m ;; k" := (bind m (fun _ => k))
  (at level 100, k at level 200, right associativity) : script_scope.

(** [for x in xs: body x]. *)
Fixpoint for_each {A} (xs : list A) (body : A -> M unit) : M unit :=
  match xs with
  | [] => ret tt
  | x :: rest => (body x ;; for_each rest body)%script
  end.

(** ** The driver

    psycopg2 as the scripts use it.  A statement is observed where the
    script hands it to [cur.execute]: its text and its argument tuple.
    [connect] and [execute] fail as the world says; [fetchall] fails when a
    cell does not parse; [cursor], [close] and [print] do not fail. *)

Section Driver.
Variable w : world.

(** [psycopg2.connect(host=..., port=port, ...)]. *)
Definition connect (port : Z) : M Z :=
  fun st =>
    match connect_fault w port with
    | None => (Return port, log (Connect port None) st)
    | Some e => (Raise e, log (Connect port (Some e)) st)
    end.

(** [conn.cursor()]. *)
Definition cursor (conn : Z) : M unit := emit (OpenCursor conn).

(** [cur.execute(sql, params)]. *)
Definition execute (conn : Z) (sql : string) (params : list string)
    : M unit :=
  fun st =>
    let st' := State (trace st ++ [Execute conn sql params])
                     (S (issued st)) (pending st) in
    match statement_fault w (issued st) with
    | Some e => (Raise e, st')
    | None =>
        match Sql.run (store w) sql params with
        | inl e => (Raise e, st')
        | inr rows => (Return tt, State (trace st') (issued st') (Some rows))
        end
    end.

(** The driver parses a [data] cell when the row is fetched. *)
Definition typecast (r : codex_row) : option (string * string * json) :=
  match data r with
  | WellFormed j => Some (guid r, section r, j)
  | Malformed _ => None
  end.

Fixpoint typecast_all (rows : list codex_row)
    : option (list (string * string * json)) :=
  match rows with
  | [] => Some []
  | r :: rest =>
      match typecast r with
      | None => None
      | Some t =>
          match typecast_all rest with
          | None => None
          | Some ts => Some (t :: ts)
          end
      end
  end.

(** [cur.fetchall()] after a statement on [public.codex]: one parse
    failure makes the whole call raise. *)
Definition fetchall_codex : M (list (string * string * json)) :=
  fun st =>
    match pending st with
    | Some (CodexRows rows) =>
        match typecast_all rows with
        | Some l => (Return l, st)
        | None => (Raise ValueError, st)
        end
    | _ => (Raise ProgrammingError, st)
    end.

(** [cur.fetchone()[0]] after a COUNT statement. *)
Definition fetchone_count : M nat :=
  fun st =>
    match pending st with
    | Some (CountRow n) => (Return n, st)
    | _ => (Raise ProgrammingError, st)
    end.

Definition fetchall_sections : M (list string) :=
  fun st =>
    match pending st with
    | Some (SectionRows l) => (Return l, st)
    | _ => (Raise ProgrammingError, st)
    end.

Definition fetchall_tables : M (list (string * string)) :=
  fun st =>
    match pending st with
    | Some (TableRows l) => (Return l, st)
    | _ => (Raise ProgrammingError, st)
    end.

Definition fetchall_columns
    : M (list (string * string * string * option string)) :=
  fun st =>
    match pending st with
    | Some (ColumnRows l) => (Return l, st)
    | _ => (Raise ProgrammingError, st)
    end.

(** [cur.close()] and [conn.close()]. *)
Definition cursor_close (conn : Z) : M unit := emit (CloseCursor conn).
Definition close (conn : Z) : M unit := emit (Close conn).

End Driver.

Local Open Scope script_scope.

(** How the interpreter leaves a script: an uncaught exception prints a
    traceback and gives status 1. *)
Definition exit_status {A} (r : result A) : Z :=
  match r with
  | Return _ => 0
  | Raise _ => 1
  | Exit code => code
  end.

Definition run_script {A} (script : M A) : result A * list event :=
  let (r, st) := script initial in (r, trace st).

(** Host, user, password and database are the same literals in every
    [connect] call, so a connection is identified by its port. *)

(** ** find_crafting.py *)

Module FindCrafting.
Section Script.
Variable w : world.

(** Line 48. *)
Definition keywords : list string :=
  ["craft"; "recipe"; "material"; "component"; "ingredient"; "require";
   "cost"].

Definition crafting_related (key : string) : bool :=
  existsb (fun keyword => Str.is_substring keyword (Str.lower key)) keywords.

(** [data.get(key, default)]; a payload that is not an object has no
    [get]. *)
Definition get (d : json) (key : string) (dflt : json) : M json :=
  match d with
  | JObj kv => ret (default dflt (Json.assoc key kv))
  | _ => raise AttributeError
  end.

(** [for key in data.keys(): ... data[key]], over an object whose keys
    are distinct. *)
Definition members (d : json) : M (list (string * json)) :=
  match d with
  | JObj kv => ret kv
  | _ => raise AttributeError
  end.

(** Lines 38-53, the body of [for row in rows]. *)
Definition show_row (row : string * string * json) : M unit :=
  let '(guid, section, data) := row in
  print (Say (Str.nl ++ "GUID: " ++ guid)) ;;
  print (Say ("Section: " ++ section)) ;;
  item_name <- get data "itemName" (JStr "N/A") ;;
  print (SayValue "Item Name: " item_name) ;;
  name <- get data "name" (JStr "N/A") ;;
  print (SayValue "Internal Name: " name) ;;
  tags <- get data "gameplayTags" (JArr []) ;;
  print (SayValue "Gameplay Tags: " tags) ;;
  print (Say (Str.nl ++ "Crafting-related fields:")) ;;
  kv <- members data ;;
  for_each kv (fun m =>
    if crafting_related (fst m)
    then print (SayValue ("  " ++ fst m ++ ": ") (snd m))
    else ret tt) ;;
  print (Say (Str.nl ++ "Full data structure:")) ;;
  print (SayValue "" data).

(** Lines 9-64, the body of the outer [try]. *)
Definition search : M unit :=
  conn <- connect w 5432 ;;
  print (Say "Connected successfully!") ;;
  cursor conn ;;
  print (Say (Str.nl ++ "Searching for crafting recipes...")) ;;
  execute w conn Sql.crafting [] ;;
  rows <- fetchall_codex ;;
  print (SayNum (Str.nl ++ "Found ") (length rows)
                (" crafting recipe(s)" ++ Str.nl)) ;;
  for_each rows show_row ;;
  print (Say (Str.nl ++ Str.nl ++ "Checking all unique sections...")) ;;
  execute w conn Sql.distinct_sections [] ;;
  sections <- fetchall_sections ;;
  print (Say "Unique sections found:") ;;
  for_each sections (fun s => print (Say ("  - " ++ s))) ;;
  cursor_close conn ;;
  close conn.

(** Lines 88-94, the statement printed for manual use. *)
Definition manual_query : string :=
  Str.nl ++
  "SELECT guid, section, data " ++ Str.nl ++
  "FROM public.codex " ++ Str.nl ++
  "WHERE section = 'items' " ++ Str.nl ++
  "AND data->'gameplayTags' @> '[" ++ Str.dq ++ "Artisanship.Crafting"
    ++ Str.dq ++ "]'::jsonb" ++ Str.nl ++
  "LIMIT 3;" ++ Str.nl ++
  "        ".

(** Lines 67-95, the handler of [except psycopg2.OperationalError]. *)
Definition fallback (e : exn) : M unit :=
  print (SayErr "Connection failed on port 5432: " e) ;;
  print (Say (Str.nl ++ "Trying port 6543...")) ;;
  try_except
    (conn <- connect w 6543 ;;
     print (Say "Connected on port 6543!"))
    (fun e2 =>
       print (SayErr "Connection also failed on port 6543: " e2) ;;
       print (Say "CONNECTION FAILED") ;;
       print (Say (Str.nl ++ "Please run this query in your Supabase SQL Editor:"
                   ++ Str.nl)) ;;
       print (Say manual_query) ;;
       sys_exit 1).

(** Lines 98-101, the handler of [except Exception]. *)
Definition unexpected (e : exn) : M unit :=
  print (SayErr "Unexpected error: " e) ;;
  print (Traceback e) ;;
  sys_exit 1.

Definition main : M unit :=
  print (Say "Attempting to connect to Supabase...") ;;
  try_except search
    (fun e =>
       match e with
       | OperationalError => fallback e
       | _ => unexpected e
       end).

End Script.
End FindCrafting.

(** ** discover_schema.py *)

Module DiscoverSchema.
Section Script.
Variable w : world.

(** Python truth value of [default]: [None] and the empty string are
    false. *)
Definition truthy (v : option string) : bool :=
  match v with
  | None => false
  | Some s => negb (s =? "")%string
  end.

(** Line 51. *)
Definition null_str (nullable : string) : string :=
  if (nullable =? "YES")%string then "NULL" else "NOT NULL".

(** Line 52. *)
Definition default_str (default : option string) : string :=
  if truthy default
  then " DEFAULT " ++ match default with Some d => d | None => "None" end
  else "".

(** Line 53. *)
Definition column_line (col : string * string * string * option string)
    : string :=
  let '(col_name, data_type, nullable, default) := col in
  "  " ++ col_name ++ ": " ++ data_type ++ " " ++ null_str nullable
       ++ default_str default.

(** Lines 36-53, the body of the second [for schema, table in tables]. *)
Definition describe (conn : Z) (t : string * string) : M unit :=
  let '(schema, table) := t in
  print (Say (Str.nl ++ schema ++ "." ++ table ++ ":")) ;;
  execute w conn Sql.list_columns [schema; table] ;;
  columns <- fetchall_columns ;;
  for_each columns (fun col => print (Say (column_line col))).

Definition main : M unit :=
  conn <- connect w 6543 ;;
  cursor conn ;;
  print (Say "TABLES IN DATABASE") ;;
  execute w conn Sql.list_tables [] ;;
  tables <- fetchall_tables ;;
  for_each tables (fun t => print (Say (fst t ++ "." ++ snd t))) ;;
  print (Say "TABLE SCHEMAS") ;;
  for_each tables (describe conn) ;;
  cursor_close conn ;;
  close conn ;;
  print (Say "Schema discovery complete!").

End Script.
End DiscoverSchema.

(** ** sample_data.py *)

Module SampleData.
Section Script.
Variable w : world.

(** Lines 40-43, the body of [for row in rows]. *)
Definition show_row (row : string * string * json) : M unit :=
  let '(guid, section, data) := row in
  print (Say (Str.nl ++ "GUID: " ++ guid)) ;;
  print (Say ("Section: " ++ section)) ;;
  print (SayValue "Data: " data).

(** Lines 52-55, [for section in sections]. *)
Definition count_sections (conn : Z) (sections : list string) : M unit :=
  for_each sections (fun s =>
    execute w conn Sql.count_section [s] ;;
    count <- fetchone_count ;;
    print (SayNum (s ++ ": ") count " entries")).

(** Lines 26-55, the body of the second [try]. *)
Definition queries (conn : Z) : M unit :=
  print (Say "Counting records...") ;;
  execute w conn Sql.count_all [] ;;
  count <- fetchone_count ;;
  print (SayNum "Total records in codex table: " count Str.nl) ;;
  print (Say "Fetching sample records...") ;;
  execute w conn Sql.sample [] ;;
  rows <- fetchall_codex ;;
  print (SayNum "Fetched " (length rows) (" rows" ++ Str.nl)) ;;
  print (Say "Sample Records:") ;;
  for_each rows show_row ;;
  print (Say (Str.nl ++ "Fetching unique sections...")) ;;
  execute w conn Sql.distinct_sections [] ;;
  sections <- fetchall_sections ;;
  print (Say (Str.nl ++ Str.nl ++ "Unique Sections:")) ;;
  count_sections conn sections.

Definition main : M unit :=
  print (Say "Connecting to Supabase...") ;;
  conn <- try_except
            (c <- connect w 6543 ;;
             print (Say "Connected successfully!") ;;
             ret c)
            (fun e =>
               print (SayErr "Connection failed: " e) ;;
               sys_exit 1) ;;
  cursor conn ;;
  try_finally
    (try_except (queries conn)
       (fun e =>
          print (SayErr "Error during query: " e) ;;
          print (Traceback e)))
    (cursor_close conn ;;
     close conn ;;
     print (Say (Str.nl ++ "Connection closed."))).

End Script.
End SampleData.

(** ** sample_data_api.py *)

Module SampleDataApi.

(** A row object of the gateway's JSON array; [record.get(key)] is
      [None] for a key the object lacks. *)
Record api_row : Type := ApiRow {
  api_guid : option string;
  api_section : option string;
  api_data : option json
}.

(** [json_body] is [None] when the body does not parse as JSON. *)
Record response : Type := Response {
  status_code : nat;
  json_body : option (list api_row);
  text : string
}.

Definition SUPABASE_URL : string := "https://khcjvtdgusteonzliyiv.supabase.co".

(** [str(x)] of an optional string. *)
Definition str (x : option string) : string :=
  match x with
  | Some s => s
  | None => "None"
  end.

(** Lines 50-53: [sections[section] = sections.get(section, 0) + 1]. *)
Definition tally (records : list api_row) : gmap (option string) nat :=
  foldl (fun sections record =>
           let section := api_section record in
           <[section := default 0 (sections !! section) + 1]> sections)
        ∅ records.

(** Order of [(key, count)] tuples; keys of a dict are distinct, so the
    counts never decide. *)
Definition item_le (a b : option string * nat) : bool :=
  match fst a, fst b with
  | Some x, Some y => (x <=? y)%string
  | _, _ => true
  end.

(** [sorted(sections.items())]: comparing [None] with a string is a
    [TypeError]. *)
Definition sorted_items (sections : gmap (option string) nat)
    : M (list (option string * nat)) :=
  let items := map_to_list sections in
  if bool_decide (is_Some (sections !! None)) && (2 <=? length items)%nat
  then raise TypeError
  else ret (Sql.order_by item_le items).

Section Script.
(** The gateway's answer to a GET request; the request itself is taken
    to reach the gateway. *)
Variable gateway : string -> response.

(** [requests.get(url, headers=headers)]. *)
Definition get (url : string) : M response :=
  fun st => (Return (gateway url), log (HttpGet url) st).

(** [response.json()]. *)
Definition json_of (r : response) : M (list api_row) :=
  match json_body r with
  | Some rows => ret rows
  | None => raise ValueError
  end.

(** Lines 37-39. *)
Definition show_record (record : api_row) : M unit :=
  print (Say (Str.nl ++ "GUID: " ++ str (api_guid record))) ;;
  print (Say ("Section: " ++ str (api_section record))) ;;
  print (SayValue "Data: " (default JNull (api_data record))).

(** Lines 43-58. *)
Definition unique_sections : M unit :=
  response <- get (SUPABASE_URL ++ "/rest/v1/codex?select=section") ;;
  if (status_code response =? 200)%nat then
    all_records <- json_of response ;;
    let sections := tally all_records in
    print (Say (Str.nl ++ Str.nl ++ "Unique Sections:")) ;;
    items <- sorted_items sections ;;
    for_each items (fun item =>
      print (SayNum (str (fst item) ++ ": ") (snd item) " entries"))
  else ret tt.

Definition main : M unit :=
  print (Say "Fetching data from Supabase...") ;;
  response <- get (SUPABASE_URL ++ "/rest/v1/codex?select=count") ;;
  print (SayNum "Count response status: " (status_code response) "") ;;
  response <- get (SUPABASE_URL ++ "/rest/v1/codex?limit=5") ;;
  if (status_code response =? 200)%nat then
    data <- json_of response ;;
    print (SayNum (Str.nl ++ "Total records fetched: ") (length data) Str.nl) ;;
    print (Say "Sample Records:") ;;
    for_each data show_record ;;
    unique_sections
  else
    print (SayNum "Error: " (status_code response) "") ;;
    print (Say (text response)).

End Script.
End SampleDataApi.

(** ** Observations on traces *)

Module Trace.

Definition is_execute (e : event) : bool :=
  match e with
  | Execute _ _ _ => true
  | _ => false
  end.

Definition is_close (port : Z) (e : event) : bool :=
  match e with
  | Close p => (p =? port)%Z
  | _ => false
  end.

Definition is_attempt (port : Z) (e : event) : bool :=
  match e with
  | Connect p _ => (p =? port)%Z
  | _ => false
  end.

Definition is_connect (e : event) : bool :=
  match e with
  | Connect _ _ => true
  | _ => false
  end.

(** A line that shows a JSON value: every record the scripts print has
    one. *)
Definition is_value (e : event) : bool :=
  match e with
  | Out (SayValue _ _) => true
  | _ => false
  end.

(** The statements handed to [execute], in order. *)
Definition statements (t : list event) : list (string * list string) :=
  flat_map (fun e => match e with
                     | Execute _ sql params => [(sql, params)]
                     | _ => []
                     end) t.

(** Whether a connection to [port] was attempted. *)
Definition attempted (port : Z) (t : list event) : bool :=
  existsb (is_attempt port) t.

(** How many times the connection on [port] was closed. *)
Definition closes (port : Z) (t : list event) : nat :=
  length (List.filter (is_close port) t).

(** The connection the script holds at the end: the last one opened. *)
Definition handle (t : list event) : option Z :=
  foldl (fun h e => match e with
                    | Connect p None => Some p
                    | _ => h
                    end) None t.

(** No statement is issued on [port] after its [Close]. *)
Fixpoint unused_after_close (port : Z) (t : list event) : bool :=
  match t with
  | [] => true
  | e :: rest =>
      if is_close port e
      then forallb (fun e' => match e' with
                              | Execute p _ _ => negb (p =? port)%Z
                              | _ => true
                              end) rest
           && unused_after_close port rest
      else unused_after_close port rest
  end.

End Trace.

(** ** Judgements on computations *)

(** Every event a computation adds to the trace satisfies [P]. *)
Definition emits {A} (P : event -> Prop) (m : M A) : Prop :=
  forall st, exists es, trace (m st).2 = trace st ++ es /\ Forall P es.

(** A computation never ends by raising [e]. *)
Definition avoids {A} (e : exn) (m : M A) : Prop :=
  forall st, (m st).1 <> Raise e.

(** ** Schemas reserved by the store

    PostgreSQL reserves every schema whose name begins with [pg_] for
    its own use, next to [information_schema]. *)
Definition system_schema (name : string) : bool :=
  String.prefix "pg_" name || (name =? "information_schema")%string.

(** ** Example stores and worlds *)

Module Examples.

(** The record of the specification's tag-search example. *)
Definition iron_ingot : codex_row :=
  CodexRow "abc123" "items"
    (WellFormed
       (JObj [ ("gameplayTags",
                JArr [JStr "Artisanship.Crafting"; JStr "Common"]);
               ("itemName", JStr "Iron Ingot") ])).

(** A store whose only record is [iron_ingot]. *)
Definition db1 : database :=
  Database [iron_ingot] [TableEntry "public" "codex"] [].

(** Port 5432 refuses the connection, port 6543 accepts it. *)
Definition first_port_operational : world :=
  World (fun p => if (p =? 5432)%Z then Some OperationalError else None)
        db1 (fun _ => None).

(** Port 5432 fails with an error that is not operational, port 6543
    accepts. *)
Definition first_port_interface : world :=
  World (fun p => if (p =? 5432)%Z then Some InterfaceError else None)
        db1 (fun _ => None).

(** No port accepts. *)
Definition both_ports_down : world :=
  World (fun p => Some OperationalError) db1 (fun _ => None).

(** Every port accepts and no statement fails. *)
Definition all_up : world := World (fun _ => None) db1 (fun _ => None).

(** A catalog as [information_schema.tables] can show it: a user table,
    a temporary table of the session (the view lists those under the
    session's [pg_temp_N] schema), a bookkeeping table of the hosting
    platform and a row of each of the two schemas the listing names; the
    columns of public.codex are stored out of order, and the column of the
    temporary table declares the empty string as its default, which the
    catalog renders as the expression [''::text]. *)
Definition catalog : database :=
  Database []
    [ TableEntry "public" "codex";
      TableEntry "pg_temp_3" "scratch";
      TableEntry "auth" "schema_migrations";
      TableEntry "pg_catalog" "pg_class";
      TableEntry "information_schema" "tables" ]
    [ ColumnEntry "public" "codex" 2 "section" "text" "NO" None;
      ColumnEntry "public" "codex" 1 "guid" "text" "NO" (Some "gen_random_uuid()");
      ColumnEntry "public" "codex" 3 "data" "jsonb" "YES" None;
      ColumnEntry "pg_temp_3" "scratch" 1 "note" "text" "YES" (Some "''::text") ].

(** The same tables in another order. *)
Definition catalog_shuffled : database :=
  Database []
    [ TableEntry "pg_temp_3" "scratch";
      TableEntry "public" "codex";
      TableEntry "pg_catalog" "pg_class";
      TableEntry "auth" "schema_migrations";
      TableEntry "information_schema" "tables" ]
    [].

(** A well-formed row. *)
Definition plain (g s : string) : codex_row :=
  CodexRow g s (WellFormed (JObj [("name", JStr g)])).

(** A table whose second row does not parse. *)
Definition one_bad_row : world :=
  World (fun _ => None)
        (Database [plain "g1" "items";
                   CodexRow "g2" "items" (Malformed "{");
                   plain "g3" "recipes"] [] [])
        (fun _ => None).

(** A table of six rows. *)
Definition six_rows : world :=
  World (fun _ => None)
        (Database [plain "g1" "items"; plain "g2" "items"; plain "g3" "items";
                   plain "g4" "items"; plain "g5" "items"; plain "g6" "items"]
                  [] [])
        (fun _ => None).




(** The first statement of the run is rejected by the store. *)
Definition first_statement_rejected : world :=
  World (fun _ => None) db1
        (fun n => if (n =? 0)%nat then Some ProgrammingError else None).

(** The first statement of the run loses the connection. *)
Definition first_statement_fails : world :=
  World (fun _ => None) catalog
        (fun n => if (n =? 0)%nat then Some OperationalError else None).

End Examples.

(** ** The connection candidates of find_crafting.py *)

(** Whether a connection attempt on [port] succeeds. *)
Definition reachable (w : world) (port : Z) : bool :=
  match connect_fault w port with
  | None => true
  | Some _ => false
  end.

(** The ports find_crafting.py tries, in order (lines 11 and 73). *)
Definition candidates : list Z := [5432%Z; 6543%Z].

(** The whole run when port 5432 is refused and port 6543 answers. *)
Definition fallback_trace : list event :=
  [ Out (Say "Attempting to connect to Supabase...");
    Connect 5432 (Some OperationalError);
    Out (SayErr "Connection failed on port 5432: " OperationalError);
    Out (Say (Str.nl ++ "Trying port 6543..."));
    Connect 6543 None;
    Out (Say "Connected on port 6543!") ].

(** ** Statements and their arguments *)

(** The statement of an [Execute] event is one of the scripts' fixed
    texts, with as many arguments as the text has placeholders. *)
Definition fixed_text (e : event) : bool :=
  match e with
  | Execute _ sql params =>
      match params with
      | [] => existsb (String.eqb sql)
                [Sql.crafting; Sql.distinct_sections; Sql.count_all;
                 Sql.sample; Sql.list_tables]
      | [_] => (sql =? Sql.count_section)%string
      | [_; _] => (sql =? Sql.list_columns)%string
      | _ => false
      end
  | _ => true
  end.

(** No statement carries an argument. *)
Definition no_arguments (e : event) : bool :=
  match e with
  | Execute _ _ (_ :: _) => false
  | _ => true
  end.

(** ** Reference traces of sample_data.py *)

(** The run in which [fetchall] raises on the sample batch, for a table
    of [n] rows. *)
Definition aborted_trace (n : nat) : list event :=
  [ Out (Say "Connecting to Supabase...");
    Connect 6543 None;
    Out (Say "Connected successfully!");
    OpenCursor 6543;
    Out (Say "Counting records...");
    Execute 6543 Sql.count_all [];
    Out (SayNum "Total records in codex table: " n Str.nl);
    Out (Say "Fetching sample records...");
    Execute 6543 Sql.sample [];
    Out (SayErr "Error during query: " ValueError);
    Out (Traceback ValueError);
    CloseCursor 6543;
    Close 6543;
    Out (Say (Str.nl ++ "Connection closed.")) ].

(** What the loop of lines 52-55 adds to the trace. *)
Definition count_trace (db : database) (conn : Z) (sections : list string)
    : list event :=
  flat_map (fun s =>
              [ Execute conn Sql.count_section [s];
                Out (SayNum (s ++ ": ") (Sql.select_count db s) " entries") ])
           sections.

(** The lines that show a record. *)
Definition shown (t : list event) : list event := List.filter Trace.is_value t.

Definition malformed (r : codex_row) : bool :=
  match data r with
  | Malformed _ => true
  | WellFormed _ => false
  end.

(** ** Judgements on how a computation ends *)

(** A computation never ends by [sys.exit]. *)
Definition no_exit {A} (m : M A) : Prop :=
  forall st c, (m st).1 <> Exit c.

(** A computation returns [a], adds the events [es] to the trace and
    leaves the cursor as it found it. *)
Definition prints_only {A} (m : M A) (a : A) (es : list event) : Prop :=
  forall st, m st = (Return a, State (trace st ++ es) (issued st) (pending st)).

Definition is_return {A} (r : result A) : bool :=
  match r with
  | Return _ => true
  | _ => false
  end.

(** A computation closes the connection on [port] once when it returns,
    and not at all when it ends otherwise. *)
Definition closes_on_return {A} (port : Z) (m : M A) : Prop :=
  forall st, exists es,
    trace (m st).2 = trace st ++ es /\
    Trace.closes port es = if is_return (m st).1 then 1%nat else 0%nat.

(** A line of output. *)
Definition is_output (e : event) : bool :=
  match e with
  | Out _ => true
  | _ => false
  end.

(** ** Complete runs

    The trace each script leaves when the store answers every request, as
    a function of the store. *)

Module Runs.

(** The rows a batch parses to, when all of them parse. *)
Definition parsed (rows : list codex_row) : list (string * string * json) :=
  default [] (typecast_all rows).

(** sample_data.py, lines 41-43. *)
Definition record_lines (row : string * string * json) : list event :=
  [ Out (Say (Str.nl ++ "GUID: " ++ row.1.1));
    Out (Say ("Section: " ++ row.1.2));
    Out (SayValue "Data: " row.2) ].

Definition sample_data_run (db : database) : list event :=
  [ Out (Say "Connecting to Supabase...");
    Connect 6543 None;
    Out (Say "Connected successfully!");
    OpenCursor 6543;
    Out (Say "Counting records...");
    Execute 6543 Sql.count_all [];
    Out (SayNum "Total records in codex table: " (length (codex db)) Str.nl);
    Out (Say "Fetching sample records...");
    Execute 6543 Sql.sample [];
    Out (SayNum "Fetched " (length (parsed (take 5 (codex db))))
           (" rows" ++ Str.nl));
    Out (Say "Sample Records:") ]
  ++ flat_map record_lines (parsed (take 5 (codex db)))
  ++ [ Out (Say (Str.nl ++ "Fetching unique sections..."));
       Execute 6543 Sql.distinct_sections [];
       Out (Say (Str.nl ++ Str.nl ++ "Unique Sections:")) ]
  ++ count_trace db 6543 (Sql.select_distinct_sections db)
  ++ [ CloseCursor 6543;
       Close 6543;
       Out (Say (Str.nl ++ "Connection closed.")) ].

(** The JSON values a trace shows, in order. *)
Definition values (t : list event) : list json :=
  flat_map (fun e => match e with
                     | Out (SayValue _ v) => [v]
                     | _ => []
                     end) t.




(** The run in which the first statement on port 5432 loses the
    connection and port 6543 answers. *)
Definition misreported_run : list event :=
  [ Out (Say "Attempting to connect to Supabase...");
    Connect 5432 None;
    Out (Say "Connected successfully!");
    OpenCursor 5432;
    Out (Say (Str.nl ++ "Searching for crafting recipes..."));
    Execute 5432 Sql.crafting [];
    Out (SayErr "Connection failed on port 5432: " OperationalError);
    Out (Say (Str.nl ++ "Trying port 6543..."));
    Connect 6543 None;
    Out (Say "Connected on port 6543!") ].

(** discover_schema.py, lines 36-53, for one table. *)
Definition describe_lines (db : database) (conn : Z) (t : string * string)
    : list event :=
  [ Out (Say (Str.nl ++ t.1 ++ "." ++ t.2 ++ ":"));
    Execute conn Sql.list_columns [t.1; t.2] ]
  ++ map (fun c => Out (Say (DiscoverSchema.column_line (Sql.column_row c))))
       (Sql.select_columns db t.1 t.2).

(** The tables discover_schema.py lists. *)
Definition listed (db : database) : list (string * string) :=
  map Sql.table_row (Sql.select_tables db).

Definition discover_schema_run (db : database) : list event :=
  [ Connect 6543 None;
    OpenCursor 6543;
    Out (Say "TABLES IN DATABASE");
    Execute 6543 Sql.list_tables [] ]
  ++ map (fun t => Out (Say (t.1 ++ "." ++ t.2))) (listed db)
  ++ [ Out (Say "TABLE SCHEMAS") ]
  ++ flat_map (describe_lines db 6543) (listed db)
  ++ [ CloseCursor 6543;
       Close 6543;
       Out (Say "Schema discovery complete!") ].


(** The numbers of the lines [<section>: <count> entries]. *)
Definition entries (t : list event) : list nat :=
  flat_map (fun e => match e with
                     | Out (SayNum _ n after) =>
                         if (after =? " entries")%string then [n] else []
                     | _ => []
                     end) t.



(** sample_data_api.py: the three request URLs. *)
Definition count_url : string :=
  SampleDataApi.SUPABASE_URL ++ "/rest/v1/codex?select=count".
Definition sample_url : string :=
  SampleDataApi.SUPABASE_URL ++ "/rest/v1/codex?limit=5".
Definition section_url : string :=
  SampleDataApi.SUPABASE_URL ++ "/rest/v1/codex?select=section".

(** sample_data_api.py, lines 37-39. *)
Definition api_record_lines (record : SampleDataApi.api_row) : list event :=
  [ Out (Say (Str.nl ++ "GUID: "
              ++ SampleDataApi.str (SampleDataApi.api_guid record)));
    Out (Say ("Section: "
              ++ SampleDataApi.str (SampleDataApi.api_section record)));
    Out (SayValue "Data: " (default JNull (SampleDataApi.api_data record))) ].

(** The run up to and including the sample request. *)
Definition api_prefix (gateway : string -> SampleDataApi.response)
    : list event :=
  [ Out (Say "Fetching data from Supabase...");
    HttpGet count_url;
    Out (SayNum "Count response status: "
           (SampleDataApi.status_code (gateway count_url)) "");
    HttpGet sample_url ].

(** The run from the sample records to the section request. *)
Definition api_sample (data : list SampleDataApi.api_row) : list event :=
  [ Out (SayNum (Str.nl ++ "Total records fetched: ") (length data) Str.nl);
    Out (Say "Sample Records:") ]
  ++ flat_map api_record_lines data
  ++ [ HttpGet section_url ].

(** The section lines of the tally of [records]. *)
Definition api_sections (records : list SampleDataApi.api_row) : list event :=
  Out (Say (Str.nl ++ Str.nl ++ "Unique Sections:"))
  :: map (fun item => Out (SayNum (SampleDataApi.str item.1 ++ ": ") item.2
                             " entries"))
       (Sql.order_by SampleDataApi.item_le
          (map_to_list (SampleDataApi.tally records))).

End Runs.

(** ** Answers of the REST gateway used as examples *)

Module ApiExamples.
Import SampleDataApi.

Definition ingot : api_row :=
  ApiRow (Some "g1") (Some "items") (Some (JObj [("name", JStr "Iron Ingot")])).

(** A row object without a ["section"] member. *)
Definition untagged : api_row := ApiRow (Some "g2") None None.

Definition guard : api_row := ApiRow (Some "g3") (Some "npcs") None.

(** A gateway that answers the section request with [sections] and every
    other request with one row. *)
Definition answer (sections : response) (url : string) : response :=
  if String.eqb url Runs.section_url then sections
  else Response 200 (Some [ingot]) "".

Definition sections_down : string -> response :=
  answer (Response 500 None "Internal Server Error").

Definition mixed : string -> response :=
  answer (Response 200 (Some [ingot; untagged]) "").

Definition two_sections : string -> response :=
  answer (Response 200 (Some [ingot; guard; ingot]) "").

End ApiExamples.

(** * Properties *)

(** ** Byte-wise order on strings *)

Module StringOrder.

Lemma ascii_compare_refl (a : ascii) : Ascii.compare a a = Eq.
Proof. unfold Ascii.compare. apply N.compare_refl. Qed.

Lemma ascii_compare_lt_trans (a b c : ascii) :
  Ascii.compare a b = Lt -> Ascii.compare b c = Lt -> Ascii.compare a c = Lt.
Proof.
  unfold Ascii.compare. rewrite !N.compare_lt_iff. apply N.lt_trans.
Qed.

Lemma compare_refl (s : string) : String.compare s s = Eq.
Proof.
  induction s as [|a s IH]; simpl; [reflexivity|].
  now rewrite ascii_compare_refl.
Qed.

Lemma compare_lt_trans (s1 : string) :
  forall s2 s3,
    String.compare s1 s2 = Lt -> String.compare s2 s3 = Lt ->
    String.compare s1 s3 = Lt.
Proof.
  induction s1 as [|a s1 IH]; intros [|b s2] [|c s3]; simpl;
    try discriminate; try reflexivity.
  destruct (Ascii.compare a b) eqn:Hab; try discriminate;
    destruct (Ascii.compare b c) eqn:Hbc; try discriminate; intros H1 H2.
  - apply Ascii.compare_eq_iff in Hab, Hbc. subst.
    rewrite ascii_compare_refl. eauto.
  - apply Ascii.compare_eq_iff in Hab. subst. now rewrite Hbc.
  - apply Ascii.compare_eq_iff in Hbc. subst. now rewrite Hab.
  - now rewrite (ascii_compare_lt_trans a b c).
Qed.

Lemma leb_refl (s : string) : (s <=? s)%string = true.
Proof. unfold String.leb. now rewrite compare_refl. Qed.

Lemma leb_trans (s1 s2 s3 : string) :
  (s1 <=? s2)%string = true -> (s2 <=? s3)%string = true ->
  (s1 <=? s3)%string = true.
Proof.
  unfold String.leb.
  destruct (String.compare s1 s2) eqn:H12; try discriminate;
    destruct (String.compare s2 s3) eqn:H23; try discriminate; intros _ _.
  - apply String.compare_eq_iff in H12, H23. subst. now rewrite compare_refl.
  - apply String.compare_eq_iff in H12. subst. now rewrite H23.
  - apply String.compare_eq_iff in H23. subst. now rewrite H12.
  - now rewrite (compare_lt_trans s1 s2 s3).
Qed.

End StringOrder.

(** ** ORDER BY sorts *)

Module OrderBy.
Section Sorting.
Context {A : Type} (le : A -> A -> bool).

Hypothesis le_total : forall a b, le a b = true \/ le b a = true.
Hypothesis le_trans :
  forall a b c, le a b = true -> le b c = true -> le a c = true.

Lemma insert_perm (x : A) (l : list A) :
  Permutation (Sql.insert_sorted le x l) (x :: l).
Proof.
  induction l as [|y l IH]; simpl; [reflexivity|].
  destruct (le x y); [reflexivity|].
  rewrite IH. apply perm_swap.
Qed.

Lemma order_by_perm (l : list A) : Permutation (Sql.order_by le l) l.
Proof.
  induction l as [|x l IH]; simpl; [reflexivity|].
  rewrite insert_perm. now rewrite IH.
Qed.

Lemma insert_sorted_sorted (x : A) (l : list A) :
  StronglySorted (Sql.le_prop le) l -> StronglySorted (Sql.le_prop le) (Sql.insert_sorted le x l).
Proof.
  induction 1 as [|y l Hs IH Hy]; simpl.
  - repeat constructor.
  - destruct (le x y) eqn:Hxy.
    + constructor; [now constructor|].
      constructor; [exact Hxy|].
      eapply List.Forall_impl; [|exact Hy]. intros z Hz. exact (le_trans _ _ _ Hxy Hz).
    + constructor; [exact IH|].
      rewrite (insert_perm x l). constructor; [|exact Hy].
      destruct (le_total x y) as [H|H]; [congruence|exact H].
Qed.

Lemma order_by_sorted (l : list A) : StronglySorted (Sql.le_prop le) (Sql.order_by le l).
Proof.
  induction l as [|x l IH]; simpl; [constructor|].
  now apply insert_sorted_sorted.
Qed.

Hypothesis le_antisym : forall a b, le a b = true -> le b a = true -> a = b.

Lemma le_refl (a : A) : le a a = true.
Proof. destruct (le_total a a); assumption. Qed.

(** A sorted list is determined by its elements. *)
Lemma sorted_unique (l1 : list A) :
  forall l2,
    StronglySorted (Sql.le_prop le) l1 -> StronglySorted (Sql.le_prop le) l2 ->
    Permutation l1 l2 -> l1 = l2.
Proof.
  induction l1 as [|a l1 IH]; intros l2 H1 H2 Hp.
  - now apply Permutation_nil in Hp.
  - destruct l2 as [|b l2].
    { symmetry in Hp. now apply Permutation_nil in Hp. }
    apply StronglySorted_inv in H1 as [H1 Ha].
    apply StronglySorted_inv in H2 as [H2 Hb].
    assert (Hab : a = b).
    { apply le_antisym.
      - assert (Hin : In b (a :: l1)).
        { eapply Permutation_in; [symmetry; exact Hp|now left]. }
        destruct Hin as [->|Hin]; [apply le_refl|].
        rewrite List.Forall_forall in Ha. now apply Ha.
      - assert (Hin : In a (b :: l2)).
        { eapply Permutation_in; [exact Hp|now left]. }
        destruct Hin as [->|Hin]; [apply le_refl|].
        rewrite List.Forall_forall in Hb. now apply Hb. }
    subst b. f_equal. apply IH; try assumption.
    eapply Permutation_cons_inv; exact Hp.
Qed.

Lemma order_by_permutation_invariant (l1 l2 : list A) :
  Permutation l1 l2 -> Sql.order_by le l1 = Sql.order_by le l2.
Proof.
  intros Hp. apply sorted_unique; try apply order_by_sorted.
  rewrite !order_by_perm. exact Hp.
Qed.

End Sorting.
End OrderBy.

(** ** The store's answers to the scripts' statements *)

Module SqlFacts.


Lemma run_distinct_sections (db : database) :
  Sql.run db Sql.distinct_sections [] =
  inr (SectionRows (Sql.select_distinct_sections db)).
Proof. reflexivity. Qed.

Lemma run_count_all (db : database) :
  Sql.run db Sql.count_all [] = inr (CountRow (length (codex db))).
Proof. reflexivity. Qed.

Lemma run_sample (db : database) :
  Sql.run db Sql.sample [] = inr (CodexRows (Sql.select_sample db 5)).
Proof. reflexivity. Qed.

Lemma run_count_section (db : database) (sec : string) :
  Sql.run db Sql.count_section [sec] = inr (CountRow (Sql.select_count db sec)).
Proof. reflexivity. Qed.

Lemma run_list_tables (db : database) :
  Sql.run db Sql.list_tables [] =
  inr (TableRows (map Sql.table_row (Sql.select_tables db))).
Proof. reflexivity. Qed.

Lemma run_list_columns (db : database) (schema table : string) :
  Sql.run db Sql.list_columns [schema; table] =
  inr (ColumnRows (map Sql.column_row (Sql.select_columns db schema table))).
Proof. reflexivity. Qed.

(** The store rejects a statement only as a programming error. *)
Lemma run_error (db : database) (sql : string) (params : list string) (e : exn) :
  Sql.run db sql params = inl e -> e = ProgrammingError.
Proof.
  unfold Sql.run.
  repeat match goal with
         | |- context [if ?b then _ else _] => destruct b
         | |- context [match ?l with [] => _ | _ :: _ => _ end] => destruct l
         end; congruence.
Qed.

End SqlFacts.

(** ** Rules for the judgements *)

Module Rules.

Section Emits.
Variable P : event -> Prop.

Lemma emits_ret {A} (a : A) : emits P (ret a).
Proof. intros st. exists []. simpl. now rewrite app_nil_r. Qed.

Lemma emits_raise {A} (e : exn) : emits P (@raise A e).
Proof. intros st. exists []. simpl. now rewrite app_nil_r. Qed.

Lemma emits_sys_exit {A} (code : Z) : emits P (@sys_exit A code).
Proof. intros st. exists []. simpl. now rewrite app_nil_r. Qed.

Lemma emits_emit (e : event) : P e -> emits P (emit e).
Proof. intros H st. exists [e]. simpl. auto. Qed.

Lemma emits_print (o : output) : P (Out o) -> emits P (print o).
Proof. apply emits_emit. Qed.

Lemma emits_bind {A B} (m : M A) (k : A -> M B) :
  emits P m -> (forall a, emits P (k a)) -> emits P (bind m k).
Proof.
  intros Hm Hk st. unfold bind.
  destruct (Hm st) as (es & He & HP).
  destruct (m st) as [[a|e|c] st']; simpl in *; try (now exists es).
  destruct (Hk a st') as (es' & He' & HP').
  exists (es ++ es'). rewrite He', He, app_assoc. split; [reflexivity|].
  now apply Forall_app.
Qed.

(** The handler matters only for the exceptions the body can raise. *)
Lemma emits_try_except {A} (body : M A) (handler : exn -> M A) :
  emits P body ->
  (forall e st, (body st).1 = Raise e -> emits P (handler e)) ->
  emits P (try_except body handler).
Proof.
  intros Hb Hh st. unfold try_except.
  destruct (Hb st) as (es & He & HP).
  specialize (Hh) with (st := st).
  destruct (body st) as [[a|e|c] st']; simpl in *; try (now exists es).
  destruct (Hh e eq_refl st') as (es' & He' & HP').
  exists (es ++ es'). rewrite He', He, app_assoc. split; [reflexivity|].
  now apply Forall_app.
Qed.

Lemma emits_try_finally {A} (body : M A) (cleanup : M unit) :
  emits P body -> emits P cleanup -> emits P (try_finally body cleanup).
Proof.
  intros Hb Hc st. unfold try_finally.
  destruct (Hb st) as (es & He & HP).
  destruct (body st) as [r st']; simpl in *.
  destruct (Hc st') as (es' & He' & HP').
  exists (es ++ es'). split; [|now apply Forall_app].
  destruct (cleanup st') as [[a|e|c] st'']; simpl in *;
    now rewrite He', He, app_assoc.
Qed.

Lemma emits_for_each {A} (xs : list A) (body : A -> M unit) :
  (forall x, emits P (body x)) -> emits P (for_each xs body).
Proof.
  intros Hb. induction xs as [|x xs IH]; simpl.
  - apply emits_ret.
  - apply emits_bind; auto.
Qed.

Lemma emits_connect (w : world) (port : Z) :
  P (Connect port (connect_fault w port)) -> emits P (connect w port).
Proof.
  intros H st. exists [Connect port (connect_fault w port)]. unfold connect.
  destruct (connect_fault w port); simpl; auto.
Qed.

Lemma emits_execute (w : world) (conn : Z) (sql : string) (params : list string) :
  P (Execute conn sql params) -> emits P (execute w conn sql params).
Proof.
  intros H st. exists [Execute conn sql params]. unfold execute.
  destruct (statement_fault w (issued st)); [simpl; auto|].
  destruct (Sql.run (store w) sql params); simpl; auto.
Qed.

Lemma emits_fetchall_codex : emits P fetchall_codex.
Proof.
  intros st. exists []. unfold fetchall_codex. rewrite app_nil_r.
  destruct (pending st) as [[]|]; simpl; auto.
  destruct (typecast_all rows); simpl; auto.
Qed.

Lemma emits_fetchone_count : emits P fetchone_count.
Proof.
  intros st. exists []. unfold fetchone_count. rewrite app_nil_r.
  destruct (pending st) as [[]|]; simpl; auto.
Qed.

Lemma emits_fetchall_sections : emits P fetchall_sections.
Proof.
  intros st. exists []. unfold fetchall_sections. rewrite app_nil_r.
  destruct (pending st) as [[]|]; simpl; auto.
Qed.

Lemma emits_fetchall_tables : emits P fetchall_tables.
Proof.
  intros st. exists []. unfold fetchall_tables. rewrite app_nil_r.
  destruct (pending st) as [[]|]; simpl; auto.
Qed.

Lemma emits_fetchall_columns : emits P fetchall_columns.
Proof.
  intros st. exists []. unfold fetchall_columns. rewrite app_nil_r.
  destruct (pending st) as [[]|]; simpl; auto.
Qed.

End Emits.

Section Avoids.
Variable bad : exn.

Lemma avoids_ret {A} (a : A) : avoids bad (ret a).
Proof. intros st. discriminate. Qed.

Lemma avoids_sys_exit {A} (code : Z) : avoids bad (@sys_exit A code).
Proof. intros st. discriminate. Qed.

Lemma avoids_raise {A} (e : exn) : e <> bad -> avoids bad (@raise A e).
Proof. intros H st. simpl. congruence. Qed.

Lemma avoids_emit (e : event) : avoids bad (emit e).
Proof. intros st. discriminate. Qed.

Lemma avoids_bind {A B} (m : M A) (k : A -> M B) :
  avoids bad m -> (forall a, avoids bad (k a)) -> avoids bad (bind m k).
Proof.
  intros Hm Hk st. unfold bind. specialize (Hm st).
  destruct (m st) as [[a|e|c] st']; simpl in *.
  - apply Hk.
  - intros [= ->]. now apply Hm.
  - discriminate.
Qed.

Lemma avoids_for_each {A} (xs : list A) (body : A -> M unit) :
  (forall x, avoids bad (body x)) -> avoids bad (for_each xs body).
Proof.
  intros Hb. induction xs as [|x xs IH]; simpl.
  - apply avoids_ret.
  - apply avoids_bind; auto.
Qed.

Lemma avoids_connect (w : world) (port : Z) :
  connect_fault w port <> Some bad -> avoids bad (connect w port).
Proof.
  intros H st. unfold connect.
  destruct (connect_fault w port); simpl; congruence.
Qed.

Lemma avoids_execute (w : world) (conn : Z) (sql : string) (params : list string) :
  bad <> ProgrammingError ->
  (forall n, statement_fault w n <> Some bad) ->
  avoids bad (execute w conn sql params).
Proof.
  intros Hbad H st. unfold execute. specialize (H (issued st)).
  destruct (statement_fault w (issued st)); simpl; [congruence|].
  destruct (Sql.run (store w) sql params) as [e|rows] eqn:E; simpl; [|discriminate].
  apply SqlFacts.run_error in E. congruence.
Qed.

Lemma avoids_fetchall_codex :
  bad <> ValueError -> bad <> ProgrammingError -> avoids bad fetchall_codex.
Proof.
  intros H1 H2 st. unfold fetchall_codex.
  destruct (pending st) as [[]|]; simpl; try congruence.
  destruct (typecast_all rows); simpl; congruence.
Qed.

Lemma avoids_fetchone_count : bad <> ProgrammingError -> avoids bad fetchone_count.
Proof.
  intros H st. unfold fetchone_count.
  destruct (pending st) as [[]|]; simpl; congruence.
Qed.

Lemma avoids_fetchall_sections :
  bad <> ProgrammingError -> avoids bad fetchall_sections.
Proof.
  intros H st. unfold fetchall_sections.
  destruct (pending st) as [[]|]; simpl; congruence.
Qed.

End Avoids.

End Rules.

(** ** Proof automation for [emits] *)

Ltac emits_step :=
  first
    [ apply Rules.emits_bind; [|intros ?]
    | apply Rules.emits_emit
    | apply Rules.emits_ret
    | apply Rules.emits_raise
    | apply Rules.emits_sys_exit
    | apply Rules.emits_for_each; intros ?
    | apply Rules.emits_execute
    | apply Rules.emits_connect
    | apply Rules.emits_fetchall_codex
    | apply Rules.emits_fetchone_count
    | apply Rules.emits_fetchall_sections
    | apply Rules.emits_fetchall_tables
    | apply Rules.emits_fetchall_columns
    | apply Rules.emits_try_finally ].

(** ** find_crafting.py: connection order and the fallback path *)

Module FindCraftingFacts.
Import FindCrafting.
Section Facts.
Variable w : world.
Variable ok : event -> bool.
Hypothesis ok_out : forall o, ok (Out o) = true.
Hypothesis ok_cursor : forall c, ok (OpenCursor c) = true.
Hypothesis ok_close_cursor : forall c, ok (CloseCursor c) = true.

Lemma emits_get d k dflt : emits (fun e => ok e = true) (get d k dflt).
Proof. destruct d; simpl; emits_step. Qed.

Lemma emits_members d : emits (fun e => ok e = true) (members d).
Proof. destruct d; simpl; emits_step. Qed.

Lemma emits_show_row row : emits (fun e => ok e = true) (show_row row).
Proof.
  destruct row as [[g s] d]. unfold show_row.
  repeat first [apply emits_get | apply emits_members | emits_step]; try apply ok_out.
  destruct (crafting_related _); emits_step. apply ok_out.
Qed.

Lemma emits_search :
  ok (Connect 5432 (connect_fault w 5432)) = true ->
  (forall c, ok (Execute c Sql.crafting []) = true) ->
  (forall c, ok (Execute c Sql.distinct_sections []) = true) ->
  (forall c, ok (Close c) = true) ->
  emits (fun e => ok e = true) (search w).
Proof.
  intros. unfold search.
  repeat first [apply emits_show_row | emits_step]; simpl; auto.
Qed.

Lemma emits_unexpected e : emits (fun e => ok e = true) (unexpected e).
Proof. unfold unexpected. repeat emits_step; apply ok_out. Qed.

Lemma emits_fallback e :
  ok (Connect 6543 (connect_fault w 6543)) = true -> emits (fun e => ok e = true) (fallback w e).
Proof.
  intros. unfold fallback.
  repeat first [emits_step | apply Rules.emits_try_except; [|intros ? ? _]];
    simpl; auto.
Qed.

Lemma avoids_show_row row : avoids OperationalError (show_row row).
Proof.
  destruct row as [[g s] d]. unfold show_row.
  repeat first
    [ apply Rules.avoids_bind; [|intros ?]
    | apply Rules.avoids_emit
    | apply Rules.avoids_for_each; intros ? ].
  all: try (destruct d; simpl; first [apply Rules.avoids_ret | now apply Rules.avoids_raise]).
  destruct (crafting_related _); [apply Rules.avoids_emit|apply Rules.avoids_ret].
Qed.

Lemma avoids_search :
  connect_fault w 5432 <> Some OperationalError ->
  (forall n, statement_fault w n <> Some OperationalError) ->
  avoids OperationalError (search w).
Proof.
  intros Hc Hs. unfold search.
  repeat first
    [ apply Rules.avoids_bind; [|intros ?]
    | apply Rules.avoids_emit
    | apply avoids_show_row
    | apply Rules.avoids_for_each; intros ?
    | apply Rules.avoids_connect; assumption
    | apply Rules.avoids_execute; [discriminate|assumption]
    | apply Rules.avoids_fetchall_codex; discriminate
    | apply Rules.avoids_fetchall_sections; discriminate ].
Qed.

End Facts.

Lemma try_except_first {A} (P : event -> Prop) (e0 : event)
    (body : M A) (handler : exn -> M A) :
  (forall st, exists es,
      trace (body st).2 = trace st ++ e0 :: es /\ Forall P es) ->
  (forall e st, (body st).1 = Raise e -> emits P (handler e)) ->
  forall st, exists es,
    trace (try_except body handler st).2 = trace st ++ e0 :: es /\ Forall P es.
Proof.
  intros Hb Hh st. unfold try_except.
  destruct (Hb st) as (es & He & HP). specialize Hh with (st := st).
  destruct (body st) as [[a|e|c] st']; simpl in *; try (now exists es).
  destruct (Hh e eq_refl st') as (es' & He' & HP').
  exists (es ++ es'). rewrite He', He, <- app_assoc. split; [reflexivity|].
  now apply Forall_app.
Qed.

Lemma not_attempted (port : Z) (es : list event) :
  Forall (fun e => negb (Trace.is_attempt port e) = true) es ->
  Trace.attempted port es = false.
Proof.
  unfold Trace.attempted. induction 1 as [|e es He _ IH]; simpl; [reflexivity|].
  rewrite IH. now destruct (Trace.is_attempt port e).
Qed.

Lemma not_attempted_no_connect (port : Z) (es : list event) :
  Forall (fun e => negb (Trace.is_connect e) = true) es ->
  Trace.attempted port es = false.
Proof.
  intros H. apply not_attempted. eapply List.Forall_impl; [|exact H].
  intros []; simpl; congruence.
Qed.

Lemma handle_no_connect (es : list event) :
  Forall (fun e => negb (Trace.is_connect e) = true) es ->
  forall h, foldl (fun h e => match e with
                              | Connect p None => Some p
                              | _ => h
                              end) h es = h.
Proof.
  induction 1 as [|e es He _ IH]; intros h; simpl; [reflexivity|].
  rewrite IH. destruct e; try reflexivity. discriminate He.
Qed.

Lemma first_attempt (w : world) (P : event -> Prop) (k : Z -> M unit) :
  (forall c, emits P (k c)) ->
  forall st, exists es,
    trace (bind (connect w 5432) k st).2 =
      trace st ++ Connect 5432%Z (connect_fault w 5432%Z) :: es /\ Forall P es.
Proof.
  intros Hk st. unfold bind, connect.
  destruct (connect_fault w 5432) as [e|]; simpl.
  - exists []. auto.
  - destruct (Hk 5432%Z (log (Connect 5432%Z None) st)) as (es & He & HP).
    exists es. rewrite He. simpl. now rewrite <- app_assoc.
Qed.

Lemma search_first_attempt (w : world) (ok : event -> bool) :
  (forall o, ok (Out o) = true) ->
  (forall c, ok (OpenCursor c) = true) ->
  (forall c, ok (CloseCursor c) = true) ->
  (forall c sql ps, ok (Execute c sql ps) = true) ->
  (forall c, ok (Close c) = true) ->
  forall st, exists es,
    trace (search w st).2 = trace st ++ Connect 5432%Z (connect_fault w 5432%Z) :: es
    /\ Forall (fun e => ok e = true) es.
Proof.
  intros. unfold search. apply first_attempt. intros c.
  repeat first [apply emits_show_row | emits_step]; simpl; auto.
Qed.

Lemma search_fails (w : world) (e : exn) (st : state) :
  connect_fault w 5432%Z = Some e ->
  search w st = (Raise e, log (Connect 5432%Z (Some e)) st).
Proof. intros H. unfold search, bind, connect. now rewrite H. Qed.

(** C1 (amended).  find_crafting.py always tries port 5432 first.  When
    that port connects and no statement raises an OperationalError, the
    script holds that connection and port 6543 is never attempted.  When port 5432 fails with an
    OperationalError, port 6543 is tried: if it connects the script holds
    that connection, and if it fails, in whatever way, the run ends with
    the CONNECTION FAILED report and exit status 1.  Any other failure on
    port 5432 ends the run with exit status 1 and port 6543 untried. *)
Theorem resolve_order (w : world) :
  let r := (run_script (main w)).1 in
  let t := (run_script (main w)).2 in
  (exists es, t = Out (Say "Attempting to connect to Supabase...")
                  :: Connect 5432%Z (connect_fault w 5432%Z) :: es) /\
  match connect_fault w 5432%Z with
  | None =>
      (forall n, statement_fault w n <> Some OperationalError) ->
      Trace.handle t = Some 5432%Z /\ Trace.attempted 6543%Z t = false
  | Some OperationalError =>
      match connect_fault w 6543%Z with
      | None => r = Return tt /\ Trace.handle t = Some 6543%Z
      | Some _ => r = Exit 1%Z /\ Out (Say "CONNECTION FAILED") ∈ t
      end
  | Some _ => r = Exit 1%Z /\ Trace.attempted 6543%Z t = false
  end.
Proof.
  cbv zeta. unfold run_script, main.
  change (bind (print ?o) ?k initial) with (k tt (log (Out o) initial)).
  cbv beta.
  set (st0 := log (Out (Say "Attempting to connect to Supabase...")) initial).
  set (handler := fun e : exn =>
                    match e with
                    | OperationalError => fallback w e
                    | _ => unexpected e
                    end).
  replace ((let (r, st) := try_except (search w) handler st0 in (r, trace st)).1)
    with (try_except (search w) handler st0).1
    by now destruct (try_except (search w) handler st0).
  replace ((let (r, st) := try_except (search w) handler st0 in (r, trace st)).2)
    with (trace (try_except (search w) handler st0).2)
    by now destruct (try_except (search w) handler st0).
  split.
  - destruct (try_except_first (A:=unit) (fun e => (fun _ => true) e = true)
                (Connect 5432%Z (connect_fault w 5432%Z)) (search w) handler)
      with (st := st0) as (es & He & _).
    + apply (search_first_attempt w (fun _ => true)); auto.
    + intros [] st _; first [apply emits_fallback | apply emits_unexpected]; auto.
    + exists es. exact He.
  - destruct (connect_fault w 5432%Z) as [e|] eqn:H1.
    + subst handler. unfold try_except. rewrite (search_fails w e st0 H1).
      destruct e; simpl.
      1: { unfold fallback, try_except, bind, connect, print, emit. simpl.
           destruct (connect_fault w 6543%Z) eqn:H2; simpl.
           - split; [reflexivity|]. set_solver.
           - split; reflexivity. }
      all: split; reflexivity.
    + intros Hs.
      set (ok := fun e => negb (Trace.is_connect e)).
      destruct (try_except_first (A:=unit) (fun e => ok e = true)
                  (Connect 5432%Z (connect_fault w 5432%Z)) (search w) handler)
        with (st := st0) as (es & He & HP).
      * apply (search_first_attempt w ok); auto.
      * intros e st Hr.
        assert (e <> OperationalError).
        { intros ->. revert Hr. apply avoids_search; [congruence|assumption]. }
        destruct e; try congruence; apply emits_unexpected; auto.
      * rewrite He, H1. split.
        -- unfold Trace.handle. simpl. now apply handle_no_connect.
        -- unfold Trace.attempted. simpl.
           now apply (not_attempted_no_connect 6543%Z).
Qed.

(** With both ports reachable and no faults the script stays on port
    5432. *)
Lemma resolve_order_witness :
  Trace.handle (run_script (main Examples.all_up)).2 = Some 5432%Z /\
  Trace.attempted 6543%Z (run_script (main Examples.all_up)).2 = false.
Proof.
  apply (proj2 (resolve_order Examples.all_up)).
  intros n H. discriminate H.
Defined.

(** Port 5432 raises an InterfaceError and port 6543 is reachable: the
    first reachable candidate is 6543, yet the run exits with status 1,
    holds no connection and never tries 6543. *)
Lemma resolve_stops_at_interface_error :
  List.find (reachable Examples.first_port_interface) candidates = Some 6543%Z /\
  (run_script (main Examples.first_port_interface)).1 = Exit 1%Z /\
  Trace.attempted 6543%Z (run_script (main Examples.first_port_interface)).2 = false /\
  Trace.handle (run_script (main Examples.first_port_interface)).2 = None.
Proof. repeat split. Qed.

(** C10.  When port 5432 fails with an OperationalError and port 6543
    connects, the run is exactly [fallback_trace]: the script holds the
    connection on port 6543, executes no statement, shows no record and
    never closes the connection. *)
Theorem fallback_success_is_idle (w : world) :
  connect_fault w 5432%Z = Some OperationalError ->
  connect_fault w 6543%Z = None ->
  run_script (main w) = (Return tt, fallback_trace) /\
  Trace.handle fallback_trace = Some 6543%Z /\
  Trace.statements fallback_trace = [] /\
  Trace.closes 6543%Z fallback_trace = 0%nat /\
  List.filter Trace.is_value fallback_trace = [].
Proof.
  intros H1 H2. split; [|repeat split].
  unfold run_script, main.
  change (bind (print ?o) ?k initial) with (k tt (log (Out o) initial)).
  cbv beta. unfold try_except at 1. rewrite (search_fails w _ _ H1).
  unfold fallback, try_except, bind, connect. simpl. rewrite H2. reflexivity.
Qed.

(** When no port accepts, the run ends with the report and status 1. *)
Example both_ports_down_exits :
  (run_script (main Examples.both_ports_down)).1 = Exit 1%Z /\
  In (Out (Say "CONNECTION FAILED"))
     (run_script (main Examples.both_ports_down)).2 /\
  Trace.handle (run_script (main Examples.both_ports_down)).2 = None.
Proof. split; [reflexivity|]. split; [simpl; tauto|reflexivity]. Qed.

(** The fallback run on a store that refuses port 5432. *)
Lemma fallback_success_is_idle_witness :
  connect_fault Examples.first_port_operational 5432%Z = Some OperationalError /\
  connect_fault Examples.first_port_operational 6543%Z = None /\
  run_script (main Examples.first_port_operational) = (Return tt, fallback_trace).
Proof.
  split; [reflexivity|]. split; [reflexivity|].
  apply (fallback_success_is_idle Examples.first_port_operational); reflexivity.
Defined.

End FindCraftingFacts.

(** ** The tag search of find_crafting.py *)

Module TagSearchFacts.

Lemma scalar_eqb_string (x : json) (tag : string) :
  Json.scalar_eqb x (JStr tag) = true <-> x = JStr tag.
Proof.
  destruct x; simpl; try (split; [discriminate|congruence]).
  rewrite String.eqb_eq. split; congruence.
Qed.

Lemma contains_tag (v : json) (tag : string) :
  Json.jsonb_contains v (JArr [JStr tag]) = true <->
  exists items, v = JArr items /\ In (JStr tag) items.
Proof.
  destruct v; simpl;
    try (split; [discriminate|intros (items & H & _); discriminate]).
  rewrite andb_true_r, existsb_exists. split.
  - intros (x & Hin & Hx). apply scalar_eqb_string in Hx. subst x.
    exists items. auto.
  - intros (items' & [= <-] & Hin). exists (JStr tag). split; [exact Hin|].
    now apply scalar_eqb_string.
Qed.

Lemma tag_contains_spec (field tag : string) (d : wire_json) :
  Sql.tag_contains field tag d = true <->
  exists j items,
    d = WellFormed j /\ Json.field j field = Some (JArr items) /\
    In (JStr tag) items.
Proof.
  unfold Sql.tag_contains. destruct d as [j|raw].
  - destruct (Json.field j field) as [v|] eqn:Hf.
    + rewrite contains_tag. split.
      * intros (items & -> & Hin). exists j, items. auto.
      * intros (j' & items & [= <-] & Hv & Hin). exists items. split; congruence.
    + split; [discriminate|]. intros (j' & items & [= <-] & Hv & _). congruence.
  - split; [discriminate|]. intros (j & items & H & _). discriminate.
Qed.

Lemma typecast_tagged (sec field tag : string) (rows : list codex_row) :
  is_Some (typecast_all (List.filter (Sql.tagged sec field tag) rows)).
Proof.
  induction rows as [|r rows IH]; simpl; [eauto|].
  destruct (Sql.tagged sec field tag r) eqn:Ht; [|exact IH].
  simpl. unfold typecast.
  apply andb_true_iff in Ht as [_ Ht].
  apply tag_contains_spec in Ht as (j & items & -> & _).
  destruct IH as [l ->]. eauto.
Qed.



End TagSearchFacts.

(** ** Catalog introspection of discover_schema.py *)

Module CatalogFacts.

Lemma filter_permutation {A} (f : A -> bool) (l l' : list A) :
  Permutation l l' -> Permutation (List.filter f l) (List.filter f l').
Proof.
  induction 1 as [|x l l' _ IH|x y l|l l' l'' _ IH1 _ IH2]; simpl.
  - constructor.
  - destruct (f x); [now constructor|exact IH].
  - destruct (f x), (f y); try reflexivity. apply perm_swap.
  - now rewrite IH1.
Qed.

(** *** The order on catalog rows *)

Lemma table_le_total (a b : table_entry) :
  Sql.table_le a b = true \/ Sql.table_le b a = true.
Proof.
  unfold Sql.table_le. rewrite (String.eqb_sym (table_schema b)).
  destruct (table_schema a =? table_schema b)%string; apply String.leb_total.
Qed.

Lemma table_le_trans (a b c : table_entry) :
  Sql.table_le a b = true -> Sql.table_le b c = true -> Sql.table_le a c = true.
Proof.
  unfold Sql.table_le.
  destruct (String.eqb_spec (table_schema a) (table_schema b)) as [Hab|Hab];
    destruct (String.eqb_spec (table_schema b) (table_schema c)) as [Hbc|Hbc];
    destruct (String.eqb_spec (table_schema a) (table_schema c)) as [Hac|Hac];
    intros H1 H2; try congruence.
  - eapply StringOrder.leb_trans; eassumption.
  - exfalso. apply Hab. apply String.leb_antisym; [exact H1|].
    rewrite Hac. exact H2.
  - eapply StringOrder.leb_trans; eassumption.
Qed.

Lemma table_le_antisym (a b : table_entry) :
  Sql.table_le a b = true -> Sql.table_le b a = true -> a = b.
Proof.
  unfold Sql.table_le. rewrite (String.eqb_sym (table_schema b)).
  destruct (String.eqb_spec (table_schema a) (table_schema b)) as [Hs|Hs];
    intros H1 H2.
  - pose proof (String.leb_antisym _ _ H1 H2) as Hn.
    destruct a, b; simpl in *; congruence.
  - exfalso. apply Hs. now apply String.leb_antisym.
Qed.

Lemma user_schema_spec (t : table_entry) :
  Sql.user_schema t = true <->
  table_schema t <> "pg_catalog" /\ table_schema t <> "information_schema".
Proof.
  unfold Sql.user_schema.
  rewrite negb_true_iff, orb_false_iff, !String.eqb_neq. reflexivity.
Qed.

(** The table listing holds exactly the catalog rows whose schema is
    neither pg_catalog nor information_schema, in ascending order of
    (schema, table), and is the same for any two catalogs with the same
    rows, in whatever order the catalog holds them. *)
Lemma select_tables_filter_and_order (db : database) :
  Sql.run db Sql.list_tables [] =
    inr (TableRows (map Sql.table_row (Sql.select_tables db))) /\
  (forall t,
      In t (Sql.select_tables db) <->
      In t (tables db) /\
      table_schema t <> "pg_catalog" /\ table_schema t <> "information_schema") /\
  StronglySorted (Sql.le_prop Sql.table_le) (Sql.select_tables db) /\
  (forall db',
      Permutation (tables db) (tables db') ->
      Sql.select_tables db' = Sql.select_tables db).
Proof.
  split; [reflexivity|]. split; [|split].
  - intros t. unfold Sql.select_tables.
    rewrite <- user_schema_spec, <- filter_In.
    split; apply Permutation_in;
      [|symmetry]; apply OrderBy.order_by_perm.
  - apply OrderBy.order_by_sorted; [apply table_le_total|apply table_le_trans].
  - intros db' Hp. unfold Sql.select_tables.
    apply OrderBy.order_by_permutation_invariant;
      [apply table_le_total|apply table_le_trans|apply table_le_antisym|].
    symmetry. now apply filter_permutation.
Qed.

(** *** Columns *)





End CatalogFacts.

(** ** sample_data.py: the shape of every run *)

Module SampleDataFacts.
Import SampleData.

Section Emits.
Variable w : world.
Variable ok : event -> bool.
Hypothesis ok_out : forall o, ok (Out o) = true.
Hypothesis ok_execute : forall c sql, 
  In sql [Sql.count_all; Sql.sample; Sql.distinct_sections] -> ok (Execute c sql []) = true.
Hypothesis ok_count : forall c s, ok (Execute c Sql.count_section [s]) = true.

Lemma emits_sample_row (row : string * string * json) :
  emits (fun e => ok e = true) (show_row row).
Proof.
  destruct row as [[g s] d]. unfold show_row. repeat emits_step; auto.
Qed.

Lemma emits_queries (conn : Z) : emits (fun e => ok e = true) (queries w conn).
Proof.
  unfold queries, count_sections.
  repeat first [apply emits_sample_row | emits_step]; auto.
  all: apply ok_execute; simpl; auto.
Qed.

Lemma emits_guarded_queries (conn : Z) :
  emits (fun e => ok e = true)
    (try_except (queries w conn)
       (fun e =>
          (print (SayErr "Error during query: " e) ;;
           print (Traceback e))%script)).
Proof.
  apply Rules.emits_try_except; [apply emits_queries|].
  intros e st _. repeat emits_step; auto.
Qed.

(** The script up to and including [cur = conn.cursor()]. *)
Lemma main_connects :
  connect_fault w 6543%Z = None ->
  main w initial =
  try_finally
    (try_except (queries w 6543%Z)
       (fun e =>
          print (SayErr "Error during query: " e) ;;
          print (Traceback e)))
    (cursor_close 6543%Z ;;
     close 6543%Z ;;
     print (Say (Str.nl ++ "Connection closed.")))
    (State [ Out (Say "Connecting to Supabase...");
             Connect 6543%Z None;
             Out (Say "Connected successfully!");
             OpenCursor 6543%Z ] 0 None).
Proof.
  intros H. unfold main, bind, try_except, connect, print, emit, cursor, ret.
  simpl. rewrite H. reflexivity.
Qed.

Lemma main_connected :
  connect_fault w 6543%Z = None ->
  exists es,
    (run_script (main w)).2 =
      [ Out (Say "Connecting to Supabase...");
        Connect 6543%Z None;
        Out (Say "Connected successfully!");
        OpenCursor 6543%Z ]
      ++ es
      ++ [ CloseCursor 6543%Z;
           Close 6543%Z;
           Out (Say (Str.nl ++ "Connection closed.")) ]
    /\ Forall (fun e => ok e = true) es.
Proof.
  intros H. unfold run_script. rewrite (main_connects H).
  unfold try_finally.
  match goal with
  | |- context [try_except (queries w ?c) ?h ?st] =>
      destruct (emits_guarded_queries c st) as (es & He & HP);
      destruct (try_except (queries w c) h st) as [r st']
  end.
  exists es. split; [|exact HP].
  simpl in He |- *. rewrite He. simpl. rewrite <- ?app_assoc. reflexivity.
Qed.

End Emits.

Lemma main_refused (w : world) (e : exn) :
  connect_fault w 6543%Z = Some e ->
  run_script (main w) =
    (Exit 1%Z,
     [ Out (Say "Connecting to Supabase...");
       Connect 6543%Z (Some e);
       Out (SayErr "Connection failed: " e) ]).
Proof.
  intros H. unfold run_script, main, bind, try_except, connect, print, emit.
  simpl. rewrite H. reflexivity.
Qed.

End SampleDataFacts.

(** ** sample_data.py: the sample fetch and the section counts *)

Module SampleDataClaims.
Import SampleData.

Lemma typecast_all_malformed (rows : list codex_row) :
  existsb malformed rows = true -> typecast_all rows = None.
Proof.
  induction rows as [|r rows IH]; simpl; [discriminate|].
  unfold typecast, malformed at 1.
  destruct (data r); simpl; [|reflexivity].
  intros H. now rewrite (IH H).
Qed.

Lemma execute_ok (w : world) (conn : Z) (sql : string) (params : list string)
    (rows : rowset) (st : state) :
  statement_fault w (issued st) = None ->
  Sql.run (store w) sql params = inr rows ->
  execute w conn sql params st =
    (Return tt,
     State (trace st ++ [Execute conn sql params]) (S (issued st)) (Some rows)).
Proof. intros Hf Hr. unfold execute. now rewrite Hf, Hr. Qed.

(** C3 (amended).  When one of the first five rows of the table does not
    parse, [fetchall] raises for the whole batch: sample_data.py shows no
    record, reports the error once, issues no further statement and closes
    the connection. *)
Theorem malformed_row_aborts_fetch (w : world) :
  connect_fault w 6543%Z = None ->
  statement_fault w 0%nat = None ->
  statement_fault w 1%nat = None ->
  existsb malformed (take 5 (codex (store w))) = true ->
  run_script (main w) = (Return tt, aborted_trace (length (codex (store w)))) /\
  shown (aborted_trace (length (codex (store w)))) = [] /\
  Trace.statements (aborted_trace (length (codex (store w)))) =
    [(Sql.count_all, []); (Sql.sample, [])] /\
  Trace.closes 6543%Z (aborted_trace (length (codex (store w)))) = 1%nat.
Proof.
  intros Hc H0 H1 Hbad. split; [|repeat split].
  unfold run_script. rewrite (SampleDataFacts.main_connects w Hc).
  unfold try_finally, try_except, queries.
  unfold bind at 1. unfold print at 1, emit at 1.
  unfold bind at 1.
  erewrite execute_ok; [|exact H0|apply SqlFacts.run_count_all].
  unfold bind at 1. unfold fetchone_count at 1. cbn [pending].
  unfold bind at 1. unfold print at 1, emit at 1.
  unfold bind at 1. unfold print at 1, emit at 1.
  unfold bind at 1.
  erewrite execute_ok; [|exact H1|apply SqlFacts.run_sample].
  unfold bind at 1. unfold fetchall_codex at 1. cbn [pending].
  unfold Sql.select_sample. rewrite (typecast_all_malformed _ Hbad).
  reflexivity.
Qed.

(** A table whose second row does not parse. *)
Lemma malformed_row_aborts_fetch_witness :
  connect_fault Examples.one_bad_row 6543%Z = None /\
  existsb malformed (take 5 (codex (store Examples.one_bad_row))) = true /\
  run_script (main Examples.one_bad_row) = (Return tt, aborted_trace 3).
Proof.
  split; [reflexivity|]. split; [reflexivity|].
  apply (malformed_row_aborts_fetch Examples.one_bad_row); reflexivity.
Defined.

(** Two of the three rows of the batch are valid, and none is shown. *)
Lemma valid_rows_are_dropped :
  length (List.filter (fun r => negb (malformed r))
            (take 5 (codex (store Examples.one_bad_row)))) = 2%nat /\
  shown (run_script (main Examples.one_bad_row)).2 = [] /\
  In (Out (SayErr "Error during query: " ValueError))
     (run_script (main Examples.one_bad_row)).2.
Proof. split; [reflexivity|]. split; [reflexivity|]. simpl. tauto. Qed.

(** *** The per-section count loop *)

Lemma count_sections_run (w : world) (conn : Z) (sections : list string) :
  (forall n, statement_fault w n = None) ->
  forall st, exists st',
    count_sections w conn sections st = (Return tt, st') /\
    trace st' = trace st ++ count_trace (store w) conn sections.
Proof.
  intros Hf. unfold count_sections.
  induction sections as [|s sections IH]; intros st.
  - exists st. simpl. now rewrite app_nil_r.
  - simpl for_each.
    unfold bind at 1. unfold bind at 1.
    erewrite execute_ok; [|apply Hf|apply SqlFacts.run_count_section].
    unfold bind at 1. unfold fetchone_count at 1. cbn [pending].
    unfold print at 1, emit at 1.
    match goal with
    | |- context [for_each sections ?body ?st1] =>
        destruct (IH st1) as (st' & Hr & Ht)
    end.
    exists st'. split; [exact Hr|].
    rewrite Ht. simpl. rewrite <- ?app_assoc. reflexivity.
Qed.

(** Over any list of sections the loop of lines 52-55 issues one COUNT
    statement per section, each with the same text and the section as its
    argument, and reports for every section of the list the exact number
    of rows of that section. *)
Lemma count_sections_spec (w : world) (conn : Z) (sections : list string) :
  (forall n, statement_fault w n = None) ->
  (forall st,
      (count_sections w conn sections st).1 = Return tt /\
      trace (count_sections w conn sections st).2 =
        trace st ++ count_trace (store w) conn sections) /\
  Trace.statements (count_trace (store w) conn sections) =
    map (fun s => (Sql.count_section, [s])) sections /\
  (forall s, In s sections ->
             In (Out (SayNum (s ++ ": ")%string
                        (length (List.filter (fun r => (section r =? s)%string)
                                   (codex (store w))))
                        " entries"))
                (count_trace (store w) conn sections)).
Proof.
  intros Hf. split; [|split].
  - intros st. destruct (count_sections_run w conn sections Hf st) as (st' & -> & Ht).
    split; [reflexivity|exact Ht].
  - induction sections as [|s sections IH]; simpl; [reflexivity|].
    now rewrite IH.
  - intros s Hin. unfold count_trace. apply in_flat_map.
    exists s. split; [exact Hin|]. simpl. auto.
Qed.

End SampleDataClaims.

(** ** What the scripts hand to the store *)

Module StatementFacts.

Lemma emits_run {A} (P : event -> Prop) (m : M A) :
  emits P m -> Forall P (run_script m).2.
Proof.
  intros Hm. unfold run_script. destruct (Hm initial) as (es & He & HP).
  destruct (m initial) as [r st]. simpl in *. now rewrite He.
Qed.

Section AnyCheck.
Variable ok : event -> bool.
Hypothesis ok_other : forall e, Trace.is_execute e = false -> ok e = true.

Lemma emits_find_crafting (w : world) :
  (forall c, ok (Execute c Sql.crafting []) = true) ->
  (forall c, ok (Execute c Sql.distinct_sections []) = true) ->
  emits (fun e => ok e = true) (FindCrafting.main w).
Proof.
  intros H1 H2. unfold FindCrafting.main.
  apply Rules.emits_bind; [apply Rules.emits_emit; now apply ok_other|].
  intros _. apply Rules.emits_try_except.
  - apply FindCraftingFacts.emits_search; auto;
      intros; apply ok_other; reflexivity.
  - intros [] st _;
      first [ apply FindCraftingFacts.emits_fallback
            | apply FindCraftingFacts.emits_unexpected ];
      intros; apply ok_other; reflexivity.
Qed.

Lemma emits_describe (w : world) (conn : Z) (t : string * string) :
  (forall c a b, ok (Execute c Sql.list_columns [a; b]) = true) ->
  emits (fun e => ok e = true) (DiscoverSchema.describe w conn t).
Proof.
  intros H. destruct t as [schema table]. unfold DiscoverSchema.describe.
  repeat emits_step; auto; apply ok_other; reflexivity.
Qed.

Lemma emits_discover_schema (w : world) :
  (forall c, ok (Execute c Sql.list_tables []) = true) ->
  (forall c a b, ok (Execute c Sql.list_columns [a; b]) = true) ->
  emits (fun e => ok e = true) (DiscoverSchema.main w).
Proof.
  intros H1 H2. unfold DiscoverSchema.main.
  repeat first [apply emits_describe | emits_step]; auto;
    apply ok_other; reflexivity.
Qed.

Lemma emits_sample_data (w : world) :
  (forall c sql,
      In sql [Sql.count_all; Sql.sample; Sql.distinct_sections] ->
      ok (Execute c sql []) = true) ->
  (forall c s, ok (Execute c Sql.count_section [s]) = true) ->
  emits (fun e => ok e = true) (SampleData.main w).
Proof.
  intros H1 H2. unfold SampleData.main.
  repeat first
    [ apply SampleDataFacts.emits_guarded_queries
    | apply Rules.emits_try_except; [|intros ? ? _]
    | emits_step ]; auto;
    intros; apply ok_other; reflexivity.
Qed.

End AnyCheck.

Lemma statements_no_arguments (t : list event) :
  Forall (fun e => no_arguments e = true) t ->
  Forall (fun s => s.2 = []) (Trace.statements t).
Proof.
  induction 1 as [|e t He _ IH]; simpl; [constructor|].
  destruct e; simpl; try exact IH.
  constructor; [|exact IH]. simpl. destruct params; [reflexivity|discriminate].
Qed.

Lemma fixed_text_other (e : event) :
  Trace.is_execute e = false -> fixed_text e = true.
Proof. destruct e; simpl; congruence. Qed.

Lemma sample_data_texts (w : world) :
  Forall (fun e => fixed_text e = true) (run_script (SampleData.main w)).2.
Proof.
  apply emits_run, emits_sample_data.
  - apply fixed_text_other.
  - intros c sql [<-|[<-|[<-|[]]]]; reflexivity.
  - reflexivity.
Qed.

(** C2 (amended).  Every statement the three psycopg2 scripts execute
    has one of seven fixed texts.  The per-section count and the
    per-table column listing pass their values as arguments to
    placeholders; the tag search of find_crafting.py passes no argument
    and has no placeholder: its section and tag are literals of the
    fixed text. *)
Theorem statement_texts_are_fixed (w : world) :
  Forall (fun e => fixed_text e = true) (run_script (SampleData.main w)).2 /\
  Forall (fun e => fixed_text e = true) (run_script (DiscoverSchema.main w)).2 /\
  Forall (fun e => fixed_text e = true) (run_script (FindCrafting.main w)).2 /\
  Forall (fun s => s.2 = [])
    (Trace.statements (run_script (FindCrafting.main w)).2) /\
  Str.is_substring "%s" Sql.count_section = true /\
  Str.is_substring "%s" Sql.crafting = false /\
  Str.is_substring "'items'" Sql.crafting = true /\
  Str.is_substring "Artisanship.Crafting" Sql.crafting = true.
Proof.
  pose proof fixed_text_other as Hother.
  assert (Hnone : forall e, Trace.is_execute e = false -> no_arguments e = true).
  { intros []; simpl; congruence. }
  split; [|split; [|split; [|split]]].
  - apply sample_data_texts.
  - apply emits_run, emits_discover_schema; auto.
  - apply emits_run, emits_find_crafting; auto.
  - apply statements_no_arguments, emits_run, emits_find_crafting; auto.
  - repeat split.
Qed.

(** The tag search is executed without arguments; its section and tag
    are part of the statement text. *)
Lemma tag_is_part_of_the_text :
  In (Execute 5432%Z Sql.crafting [])
     (run_script (FindCrafting.main Examples.all_up)).2 /\
  Str.is_substring "Artisanship.Crafting" Sql.crafting = true /\
  Str.is_substring "'items'" Sql.crafting = true.
Proof. split; [|split; reflexivity]. simpl. tauto. Qed.

End StatementFacts.

(** ** Release of the connection *)

Module ReleaseFacts.

Lemma closes_app (port : Z) (l1 l2 : list event) :
  Trace.closes port (l1 ++ l2) =
  (Trace.closes port l1 + Trace.closes port l2)%nat.
Proof. unfold Trace.closes. now rewrite List.filter_app, length_app. Qed.

Lemma closes_none (port : Z) (l : list event) :
  Forall (fun e => negb (Trace.is_close port e) = true) l ->
  Trace.closes port l = 0%nat.
Proof.
  unfold Trace.closes. induction 1 as [|e l He _ IH]; simpl; [reflexivity|].
  apply negb_true_iff in He. now rewrite He.
Qed.

Lemma unused_after_close_skip (port : Z) (l1 l2 : list event) :
  Forall (fun e => negb (Trace.is_close port e) = true) l1 ->
  Trace.unused_after_close port (l1 ++ l2) = Trace.unused_after_close port l2.
Proof.
  induction 1 as [|e l He _ IH]; simpl; [reflexivity|].
  apply negb_true_iff in He. now rewrite He.
Qed.

(** X1.  sample_data.py closes its connection exactly once on every path
    that opened it, and issues nothing on it afterwards. *)
Lemma sample_data_releases_once (w : world) :
  match connect_fault w 6543%Z with
  | None =>
      Trace.closes 6543%Z (run_script (SampleData.main w)).2 = 1%nat /\
      Trace.unused_after_close 6543%Z (run_script (SampleData.main w)).2 = true
  | Some _ =>
      Trace.handle (run_script (SampleData.main w)).2 = None /\
      Trace.closes 6543%Z (run_script (SampleData.main w)).2 = 0%nat
  end.
Proof.
  destruct (connect_fault w 6543%Z) as [e|] eqn:H.
  - rewrite (SampleDataFacts.main_refused w e H). split; reflexivity.
  - destruct (SampleDataFacts.main_connected w
                (fun e => negb (Trace.is_close 6543%Z e))) as (es & -> & HP);
      try reflexivity; try exact H.
    split.
    + rewrite !closes_app, (closes_none _ _ HP). reflexivity.
    + rewrite (unused_after_close_skip 6543%Z [_; _; _; _]) by (repeat constructor).
      rewrite (unused_after_close_skip _ _ _ HP). reflexivity.
Qed.

(** C4 (failing runs).  find_crafting.py never closes the connection it
    opens on port 6543, nor the one on port 5432 when a statement is
    rejected; discover_schema.py does not close its connection when a
    statement raises, although it does on the path without errors. *)
Theorem connection_is_leaked :
  (Trace.handle (run_script (FindCrafting.main Examples.first_port_operational)).2
     = Some 6543%Z /\
   Trace.closes 6543%Z
     (run_script (FindCrafting.main Examples.first_port_operational)).2 = 0%nat) /\
  ((run_script (FindCrafting.main Examples.first_statement_rejected)).1 = Exit 1%Z /\
   Trace.handle (run_script (FindCrafting.main Examples.first_statement_rejected)).2
     = Some 5432%Z /\
   Trace.closes 5432%Z
     (run_script (FindCrafting.main Examples.first_statement_rejected)).2 = 0%nat) /\
  ((run_script (DiscoverSchema.main Examples.first_statement_fails)).1
     = Raise OperationalError /\
   Trace.handle (run_script (DiscoverSchema.main Examples.first_statement_fails)).2
     = Some 6543%Z /\
   Trace.closes 6543%Z
     (run_script (DiscoverSchema.main Examples.first_statement_fails)).2 = 0%nat) /\
  Trace.closes 6543%Z (run_script (DiscoverSchema.main Examples.all_up)).2 = 1%nat.
Proof. repeat split. Qed.

End ReleaseFacts.

(** ** sample_data_api.py *)

Module ApiFacts.
Import SampleDataApi.

(** Number of records of a section. *)
Lemma tally_step (records : list api_row) :
  forall (acc : gmap (option string) nat) (k : option string),
    foldl (fun sections record =>
             let section := api_section record in
             <[section := default 0 (sections !! section) + 1]> sections)
          acc records !! k =
    let n := length (List.filter (fun r => bool_decide (api_section r = k)) records) in
    if (n =? 0)%nat then acc !! k else Some (default 0 (acc !! k) + n).
Proof.
  induction records as [|r records IH]; intros acc k; simpl; [reflexivity|].
  rewrite IH. clear IH.
  destruct (decide (api_section r = k)) as [->|Hne].
  - rewrite bool_decide_eq_true_2 by reflexivity. simpl.
    rewrite lookup_insert_eq. simpl.
    destruct (length _) as [|n]; simpl; f_equal; lia.
  - rewrite bool_decide_eq_false_2 by exact Hne.
    now rewrite lookup_insert_ne.
Qed.

(** The tally holds exactly the sections that occur, each with its number
    of records; a section without records has no entry. *)
Lemma tally_spec (records : list api_row) (k : option string) :
  tally records !! k =
  match length (List.filter (fun r => bool_decide (api_section r = k)) records) with
  | O => None
  | S n => Some (S n)
  end.
Proof.
  unfold tally. rewrite tally_step. rewrite lookup_empty. simpl.
  now destruct (length _).
Qed.

Section Requests.
Variable gateway : string -> response.
Variable ok : event -> bool.
Hypothesis ok_out : forall o, ok (Out o) = true.
Hypothesis ok_get : forall path,
  In path ["/rest/v1/codex?select=count"; "/rest/v1/codex?limit=5";
           "/rest/v1/codex?select=section"] ->
  ok (HttpGet (SUPABASE_URL ++ path)) = true.

Lemma emits_http_get (path : string) :
  In path ["/rest/v1/codex?select=count"; "/rest/v1/codex?limit=5";
           "/rest/v1/codex?select=section"] ->
  emits (fun e => ok e = true) (get gateway (SUPABASE_URL ++ path)).
Proof.
  intros H st. exists [HttpGet (SUPABASE_URL ++ path)]. simpl. auto.
Qed.

Lemma emits_json_of (r : response) : emits (fun e => ok e = true) (json_of r).
Proof. unfold json_of. destruct (json_body r); emits_step. Qed.

Lemma emits_sorted_items (m : gmap (option string) nat) :
  emits (fun e => ok e = true) (sorted_items m).
Proof. unfold sorted_items. destruct (_ && _); emits_step. Qed.

Lemma emits_unique_sections : emits (fun e => ok e = true) (unique_sections gateway).
Proof.
  unfold unique_sections.
  apply Rules.emits_bind; [apply emits_http_get; simpl; auto|]. intros r.
  destruct (status_code r =? 200)%nat; [|emits_step].
  repeat first [apply emits_json_of | apply emits_sorted_items | emits_step]; auto.
Qed.

Lemma emits_api_main : emits (fun e => ok e = true) (main gateway).
Proof.
  unfold main.
  apply Rules.emits_bind; [emits_step; auto|]. intros _.
  apply Rules.emits_bind; [apply emits_http_get; simpl; auto|]. intros r0.
  apply Rules.emits_bind; [emits_step; auto|]. intros _.
  apply Rules.emits_bind; [apply emits_http_get; simpl; auto|]. intros r.
  destruct (status_code r =? 200)%nat.
  - unfold show_record.
    repeat first [apply emits_json_of | apply emits_unique_sections | emits_step];
      auto.
  - repeat emits_step; auto.
Qed.

End Requests.
End ApiFacts.

(** ** Rules for the further judgements *)

Module EndRules.

Lemma no_exit_ret {A} (a : A) : no_exit (ret a).
Proof. intros st c. discriminate. Qed.

Lemma no_exit_raise {A} (e : exn) : no_exit (@raise A e).
Proof. intros st c. discriminate. Qed.

Lemma no_exit_emit (e : event) : no_exit (emit e).
Proof. intros st c. discriminate. Qed.

Lemma no_exit_bind {A B} (m : M A) (k : A -> M B) :
  no_exit m -> (forall a, no_exit (k a)) -> no_exit (bind m k).
Proof.
  intros Hm Hk st c. unfold bind. specialize (Hm st).
  destruct (m st) as [[a|e|c'] st']; simpl in *.
  - apply Hk.
  - discriminate.
  - exfalso. now apply (Hm c').
Qed.

Lemma no_exit_for_each {A} (xs : list A) (body : A -> M unit) :
  (forall x, no_exit (body x)) -> no_exit (for_each xs body).
Proof.
  intros Hb. induction xs as [|x xs IH]; simpl.
  - apply no_exit_ret.
  - apply no_exit_bind; auto.
Qed.

Lemma no_exit_connect (w : world) (port : Z) : no_exit (connect w port).
Proof.
  intros st c. unfold connect. destruct (connect_fault w port); discriminate.
Qed.

Lemma no_exit_execute (w : world) (conn : Z) (sql : string)
    (params : list string) :
  no_exit (execute w conn sql params).
Proof.
  intros st c. unfold execute.
  destruct (statement_fault w (issued st)); [discriminate|].
  destruct (Sql.run (store w) sql params); discriminate.
Qed.

Lemma no_exit_fetchall_codex : no_exit fetchall_codex.
Proof.
  intros st c. unfold fetchall_codex.
  destruct (pending st) as [[]|]; try discriminate.
  destruct (typecast_all rows); discriminate.
Qed.

Lemma no_exit_fetchone_count : no_exit fetchone_count.
Proof.
  intros st c. unfold fetchone_count.
  destruct (pending st) as [[]|]; discriminate.
Qed.

Lemma no_exit_fetchall_sections : no_exit fetchall_sections.
Proof.
  intros st c. unfold fetchall_sections.
  destruct (pending st) as [[]|]; discriminate.
Qed.

Lemma no_exit_fetchall_tables : no_exit fetchall_tables.
Proof.
  intros st c. unfold fetchall_tables.
  destruct (pending st) as [[]|]; discriminate.
Qed.

Lemma no_exit_fetchall_columns : no_exit fetchall_columns.
Proof.
  intros st c. unfold fetchall_columns.
  destruct (pending st) as [[]|]; discriminate.
Qed.

(** *** Computations that only print *)

Lemma prints_only_ret {A} (a : A) : prints_only (ret a) a [].
Proof. intros [t i p]. unfold ret. simpl. now rewrite app_nil_r. Qed.

Lemma prints_only_emit (e : event) : prints_only (emit e) tt [e].
Proof. intros st. reflexivity. Qed.

Lemma prints_only_bind {A B} (m : M A) (k : A -> M B) (a : A) (b : B)
    (es1 es2 : list event) :
  prints_only m a es1 -> prints_only (k a) b es2 ->
  prints_only (bind m k) b (es1 ++ es2).
Proof.
  intros Hm Hk st. unfold bind. rewrite Hm, Hk. simpl. now rewrite app_assoc.
Qed.

Lemma prints_only_for_each {A} (xs : list A) (body : A -> M unit)
    (lines : A -> list event) :
  (forall x, In x xs -> prints_only (body x) tt (lines x)) ->
  prints_only (for_each xs body) tt (flat_map lines xs).
Proof.
  induction xs as [|x xs IH]; intros Hb; simpl.
  - apply prints_only_ret.
  - apply (prints_only_bind _ _ tt tt).
    + apply Hb. now left.
    + apply IH. intros y Hy. apply Hb. now right.
Qed.

(** *** Closing on return *)

Lemma closes_on_return_bind {A B} (port : Z) (m : M A) (k : A -> M B) :
  emits (fun e => negb (Trace.is_close port e) = true) m ->
  (forall a, closes_on_return port (k a)) ->
  closes_on_return port (bind m k).
Proof.
  intros Hm Hk st. unfold bind.
  destruct (Hm st) as (es & He & HP).
  destruct (m st) as [[a|e|c] st']; simpl in *.
  - destruct (Hk a st') as (es' & He' & Hc).
    exists (es ++ es'). rewrite He', He, app_assoc. split; [reflexivity|].
    now rewrite ReleaseFacts.closes_app, (ReleaseFacts.closes_none _ _ HP).
  - exists es. split; [exact He|]. now apply ReleaseFacts.closes_none.
  - exists es. split; [exact He|]. now apply ReleaseFacts.closes_none.
Qed.

End EndRules.

(** ** sample_data.py: how a run ends and what a complete run does *)

Module SampleDataRuns.
Import SampleData.

Lemma no_exit_sample_row (row : string * string * json) : no_exit (show_row row).
Proof.
  destruct row as [[g s] d]. unfold show_row.
  repeat first [apply EndRules.no_exit_bind; [|intros ?] | apply EndRules.no_exit_emit].
Qed.

Lemma no_exit_queries (w : world) (conn : Z) : no_exit (queries w conn).
Proof.
  unfold queries, count_sections.
  repeat first
    [ apply EndRules.no_exit_bind; [|intros ?]
    | apply EndRules.no_exit_emit
    | apply no_exit_sample_row
    | apply EndRules.no_exit_for_each; intros ?
    | apply EndRules.no_exit_execute
    | apply EndRules.no_exit_fetchall_codex
    | apply EndRules.no_exit_fetchone_count
    | apply EndRules.no_exit_fetchall_sections ].
Qed.

(** X2.  sample_data.py ends with exit status 1 exactly when the
    connection on port 6543 is refused.  Once connected it always runs
    to its end: whatever a statement or a fetch raises is reported and
    swallowed by the handler of line 57. *)
Theorem sample_data_exit_status (w : world) :
  (run_script (main w)).1 =
  if reachable w 6543%Z then Return tt else Exit 1%Z.
Proof.
  unfold reachable. destruct (connect_fault w 6543%Z) as [e|] eqn:H.
  - now rewrite (SampleDataFacts.main_refused w e H).
  - unfold run_script. rewrite (SampleDataFacts.main_connects w H).
    unfold try_finally, try_except.
    match goal with
    | |- context [queries w ?c ?st] =>
        pose proof (no_exit_queries w c st) as Hx;
        destruct (queries w c st) as [[[]|e|c'] st']
    end; try reflexivity.
    exfalso. now apply (Hx c').
Qed.

Lemma typecast_all_parsed (rows : list codex_row) :
  existsb malformed rows = false -> typecast_all rows = Some (Runs.parsed rows).
Proof.
  unfold Runs.parsed. induction rows as [|r rows IH]; simpl; [reflexivity|].
  unfold typecast, malformed at 1.
  destruct (data r); simpl; [|discriminate].
  intros H. now rewrite (IH H).
Qed.

Lemma typecast_all_length (rows : list codex_row) :
  forall l, typecast_all rows = Some l -> length l = length rows.
Proof.
  induction rows as [|r rows IH]; simpl; intros l.
  - now intros [= <-].
  - destruct (typecast r); [|discriminate].
    destruct (typecast_all rows) as [ts|]; [|discriminate].
    intros [= <-]. simpl. now rewrite (IH ts).
Qed.

Lemma length_parsed (rows : list codex_row) :
  existsb malformed rows = false -> length (Runs.parsed rows) = length rows.
Proof. intros H. apply typecast_all_length. now apply typecast_all_parsed. Qed.

Lemma show_row_prints (row : string * string * json) :
  prints_only (show_row row) tt (Runs.record_lines row).
Proof.
  destruct row as [[g s] d]. intros st.
  unfold show_row, bind, print, emit, log, Runs.record_lines. simpl.
  now rewrite <- !app_assoc.
Qed.

Lemma sample_data_complete_run (w : world) :
  connect_fault w 6543%Z = None ->
  (forall n, statement_fault w n = None) ->
  existsb malformed (take 5 (codex (store w))) = false ->
  run_script (main w) = (Return tt, Runs.sample_data_run (store w)).
Proof.
  intros Hc Hf Hok.
  unfold run_script. rewrite (SampleDataFacts.main_connects w Hc).
  unfold try_finally, try_except, queries.
  unfold bind at 1. unfold print at 1, emit at 1.
  unfold bind at 1.
  erewrite SampleDataClaims.execute_ok; [|apply Hf|apply SqlFacts.run_count_all].
  unfold bind at 1. unfold fetchone_count at 1. cbn [pending].
  unfold bind at 1. unfold print at 1, emit at 1.
  unfold bind at 1. unfold print at 1, emit at 1.
  unfold bind at 1.
  erewrite SampleDataClaims.execute_ok; [|apply Hf|apply SqlFacts.run_sample].
  unfold bind at 1. unfold fetchall_codex at 1. cbn [pending].
  unfold Sql.select_sample. rewrite (typecast_all_parsed _ Hok).
  unfold bind at 1. unfold print at 1, emit at 1.
  unfold bind at 1. unfold print at 1, emit at 1.
  unfold bind at 1.
  rewrite (EndRules.prints_only_for_each _ _ Runs.record_lines
             (fun x _ => show_row_prints x)).
  unfold bind at 1. unfold print at 1, emit at 1.
  unfold bind at 1.
  erewrite SampleDataClaims.execute_ok; [|apply Hf|apply SqlFacts.run_distinct_sections].
  unfold bind at 1. unfold fetchall_sections at 1. cbn [pending].
  unfold bind at 1. unfold print at 1, emit at 1.
  match goal with
  | |- context [count_sections w ?c ?l ?st] =>
      destruct (SampleDataClaims.count_sections_run w c l Hf st) as (st' & -> & Ht)
  end.
  unfold bind, cursor_close, close, print, emit, log. cbn [fst snd trace].
  rewrite Ht. cbn [trace log].
  unfold Runs.sample_data_run. rewrite <- !app_assoc. reflexivity.
Qed.

End SampleDataRuns.

(** ** Counting by section *)

Module CountFacts.







End CountFacts.

(** ** sample_data.py: the complete run *)

Module SampleDataComplete.
Import SampleData.

Lemma statements_app (l1 l2 : list event) :
  Trace.statements (l1 ++ l2) = Trace.statements l1 ++ Trace.statements l2.
Proof. unfold Trace.statements. apply flat_map_app. Qed.

Lemma entries_app (l1 l2 : list event) :
  Runs.entries (l1 ++ l2) = Runs.entries l1 ++ Runs.entries l2.
Proof. unfold Runs.entries. apply flat_map_app. Qed.

Lemma statements_record_lines (rows : list (string * string * json)) :
  Trace.statements (flat_map Runs.record_lines rows) = [].
Proof. induction rows as [|r rows IH]; simpl; [reflexivity|exact IH]. Qed.


Lemma statements_count_trace (db : database) (conn : Z) (ss : list string) :
  Trace.statements (count_trace db conn ss) =
  map (fun s => (Sql.count_section, [s])) ss.
Proof. induction ss as [|s ss IH]; simpl; [reflexivity|]. now rewrite IH. Qed.


Lemma statements_of_run (db : database) :
  Trace.statements (Runs.sample_data_run db) =
  [ (Sql.count_all, []); (Sql.sample, []); (Sql.distinct_sections, []) ]
  ++ map (fun s => (Sql.count_section, [s])) (Sql.select_distinct_sections db).
Proof.
  unfold Runs.sample_data_run.
  rewrite !statements_app, statements_record_lines, statements_count_trace.
  simpl. now rewrite app_nil_r.
Qed.


(** X3.  When the store answers every request and the first five rows
    parse, sample_data.py issues the total count, the sample, the
    section listing and then one parameterised count per distinct
    section, in the order of the listing, and nothing else. *)
Theorem sample_data_statement_sequence (w : world) :
  connect_fault w 6543%Z = None ->
  (forall n, statement_fault w n = None) ->
  existsb malformed (take 5 (codex (store w))) = false ->
  (run_script (main w)).1 = Return tt /\
  Trace.statements (run_script (main w)).2 =
    [ (Sql.count_all, []); (Sql.sample, []); (Sql.distinct_sections, []) ]
    ++ map (fun s => (Sql.count_section, [s]))
         (Sql.select_distinct_sections (store w)).
Proof.
  intros Hc Hf Hok.
  rewrite (SampleDataRuns.sample_data_complete_run w Hc Hf Hok).
  split; [reflexivity|]. apply statements_of_run.
Qed.

Lemma sample_data_statement_sequence_witness :
  connect_fault Examples.six_rows 6543%Z = None /\
  Trace.statements (run_script (main Examples.six_rows)).2 =
    [ (Sql.count_all, []); (Sql.sample, []); (Sql.distinct_sections, []);
      (Sql.count_section, ["items"]) ].
Proof.
  split; [reflexivity|].
  exact (proj2 (sample_data_statement_sequence Examples.six_rows
                  eq_refl (fun n => eq_refl) eq_refl)).
Defined.



Lemma values_record_lines (rows : list (string * string * json)) :
  Runs.values (flat_map Runs.record_lines rows) = map snd rows.
Proof. induction rows as [|r rows IH]; simpl; [reflexivity|]. now rewrite IH. Qed.

Lemma values_count_trace (db : database) (conn : Z) (ss : list string) :
  Runs.values (count_trace db conn ss) = [].
Proof. induction ss as [|s ss IH]; simpl; [reflexivity|exact IH]. Qed.

Lemma values_app (l1 l2 : list event) :
  Runs.values (l1 ++ l2) = Runs.values l1 ++ Runs.values l2.
Proof. unfold Runs.values. apply flat_map_app. Qed.

Lemma parsed_payloads (rows : list codex_row) :
  existsb malformed rows = false ->
  map WellFormed (map snd (Runs.parsed rows)) = map data rows.
Proof.
  unfold Runs.parsed. induction rows as [|r rows IH]; simpl; [reflexivity|].
  unfold typecast, malformed at 1.
  destruct (data r) eqn:Hd; simpl; [|discriminate].
  intros H. specialize (IH H).
  rewrite (SampleDataRuns.typecast_all_parsed rows H) in IH |- *.
  simpl in *. now rewrite IH.
Qed.

(** X5.  On a complete run sample_data.py dumps the payloads of the
    first five rows of the table, in table order: as many as the table
    holds when it holds fewer than five. *)
Theorem sample_data_shows_first_rows (w : world) :
  connect_fault w 6543%Z = None ->
  (forall n, statement_fault w n = None) ->
  existsb malformed (take 5 (codex (store w))) = false ->
  map WellFormed (Runs.values (run_script (main w)).2)
    = map data (take 5 (codex (store w))) /\
  length (Runs.values (run_script (main w)).2)
    = Nat.min 5 (length (codex (store w))).
Proof.
  intros Hc Hf Hok.
  rewrite (SampleDataRuns.sample_data_complete_run w Hc Hf Hok).
  cbn [snd].
  assert (Hv : Runs.values (Runs.sample_data_run (store w)) =
               map snd (Runs.parsed (take 5 (codex (store w))))).
  { unfold Runs.sample_data_run.
    rewrite !values_app, values_record_lines, values_count_trace.
    simpl. now rewrite app_nil_r. }
  rewrite Hv. split.
  - now apply parsed_payloads.
  - rewrite length_map, (SampleDataRuns.length_parsed _ Hok), length_take. lia.
Qed.

Lemma sample_data_shows_first_rows_witness :
  connect_fault Examples.six_rows 6543%Z = None /\
  length (Runs.values (run_script (main Examples.six_rows)).2) = 5%nat.
Proof.
  split; [reflexivity|].
  exact (proj2 (sample_data_shows_first_rows Examples.six_rows
                  eq_refl (fun n => eq_refl) eq_refl)).
Defined.

End SampleDataComplete.

(** ** find_crafting.py: how a run ends and what a complete run does *)

Module FindCraftingRuns.
Import FindCrafting.

Lemma no_exit_item_row (row : string * string * json) : no_exit (show_row row).
Proof.
  destruct row as [[g s] d]. unfold show_row, get, members.
  repeat first
    [ apply EndRules.no_exit_bind; [|intros ?]
    | apply EndRules.no_exit_emit
    | apply EndRules.no_exit_for_each; intros ? ].
  all: try (destruct d; first [apply EndRules.no_exit_ret | apply EndRules.no_exit_raise]).
  destruct (crafting_related _);
    [apply EndRules.no_exit_emit|apply EndRules.no_exit_ret].
Qed.

Lemma no_exit_search (w : world) : no_exit (search w).
Proof.
  unfold search.
  repeat first
    [ apply EndRules.no_exit_bind; [|intros ?]
    | apply EndRules.no_exit_emit
    | apply no_exit_item_row
    | apply EndRules.no_exit_for_each; intros ?
    | apply EndRules.no_exit_connect
    | apply EndRules.no_exit_execute
    | apply EndRules.no_exit_fetchall_codex
    | apply EndRules.no_exit_fetchall_sections ].
Qed.

Lemma handled_search_ends_cleanly (w : world) (st : state) :
  let r := (try_except (search w)
              (fun e => match e with
                        | OperationalError => fallback w e
                        | _ => unexpected e
                        end) st).1 in
  r = Return tt \/ r = Exit 1%Z.
Proof.
  cbv zeta. unfold try_except.
  pose proof (no_exit_search w st) as Hx.
  destruct (search w st) as [[[]|e|c] st'].
  - now left.
  - destruct e; try (right; reflexivity).
    unfold fallback, try_except, bind, connect, print, emit. simpl.
    destruct (connect_fault w 6543%Z); [right|left]; reflexivity.
  - exfalso. now apply (Hx c).
Qed.

(** X6.  find_crafting.py never ends with an uncaught exception: it
    either runs to its end or leaves through [sys.exit(1)]. *)
Theorem find_crafting_ends_cleanly (w : world) :
  (run_script (main w)).1 = Return tt \/ (run_script (main w)).1 = Exit 1%Z.
Proof.
  unfold run_script, main.
  change (bind (print ?o) ?k initial) with (k tt (log (Out o) initial)).
  cbv beta.
  match goal with
  | |- context [try_except (search w) ?h ?st] =>
      pose proof (handled_search_ends_cleanly w st) as H;
      cbv zeta in H;
      destruct (try_except (search w) h st) as [r st']
  end.
  exact H.
Qed.

(** *** Rows the tag search returns *)









(** *** Observations on lists of output lines *)

Lemma outputs_no_statement (es : list event) :
  Forall (fun e => is_output e = true) es -> Trace.statements es = [].
Proof.
  induction 1 as [|e es He _ IH]; simpl; [reflexivity|].
  destruct e; try discriminate. exact IH.
Qed.





Lemma attempted_app (port : Z) (l1 l2 : list event) :
  Trace.attempted port (l1 ++ l2) =
  Trace.attempted port l1 || Trace.attempted port l2.
Proof. unfold Trace.attempted. apply existsb_app. Qed.









(** *** A statement that loses the connection *)

Lemma execute_fault (w : world) (conn : Z) (sql : string)
    (params : list string) (e : exn) (st : state) :
  statement_fault w (issued st) = Some e ->
  execute w conn sql params st =
    (Raise e,
     State (trace st ++ [Execute conn sql params]) (S (issued st)) (pending st)).
Proof. intros H. unfold execute. now rewrite H. Qed.

(** X9.  An OperationalError raised by the first statement, after port
    5432 had accepted the connection, is reported as a connection failure
    on port 5432: the script connects on port 6543, returns normally, and
    closes neither connection. *)
Theorem statement_failure_triggers_fallback (w : world) :
  connect_fault w 5432%Z = None ->
  statement_fault w 0%nat = Some OperationalError ->
  connect_fault w 6543%Z = None ->
  run_script (main w) = (Return tt, Runs.misreported_run) /\
  Trace.closes 5432%Z Runs.misreported_run = 0%nat /\
  Trace.closes 6543%Z Runs.misreported_run = 0%nat /\
  Trace.handle Runs.misreported_run = Some 6543%Z.
Proof.
  intros Hc H0 H2. split; [|repeat split].
  unfold run_script, main.
  change (bind (print ?o) ?k initial) with (k tt (log (Out o) initial)).
  cbv beta. cbn [log trace issued pending initial].
  unfold try_except at 1, search.
  unfold bind at 1. unfold connect at 1. rewrite Hc.
  cbn [log trace issued pending].
  unfold bind at 1. unfold print at 1, emit at 1.
  cbn [log trace issued pending].
  unfold bind at 1. unfold cursor at 1, emit at 1.
  cbn [log trace issued pending].
  unfold bind at 1. unfold print at 1, emit at 1.
  cbn [log trace issued pending].
  unfold bind at 1.
  cbn [log trace issued pending].
  erewrite execute_fault; [|exact H0].
  cbn [log trace issued pending].
  unfold fallback, try_except, bind, connect, print, emit.
  cbn [log trace issued pending fst snd]. rewrite H2. reflexivity.
Qed.

Lemma statement_failure_triggers_fallback_witness :
  connect_fault Examples.first_statement_fails 5432%Z = None /\
  statement_fault Examples.first_statement_fails 0%nat = Some OperationalError /\
  run_script (main Examples.first_statement_fails) =
    (Return tt, Runs.misreported_run).
Proof.
  split; [reflexivity|]. split; [reflexivity|].
  exact (proj1 (statement_failure_triggers_fallback Examples.first_statement_fails
                  eq_refl eq_refl eq_refl)).
Defined.

End FindCraftingRuns.

(** ** When the connection is closed *)

Module CloseFacts.

Lemma closes_on_return_connect {B} (w : world) (port : Z) (k : Z -> M B) :
  closes_on_return port (k port) ->
  closes_on_return port (bind (connect w port) k).
Proof.
  intros Hk st. unfold bind, connect.
  destruct (connect_fault w port) as [e|]; simpl.
  - exists [Connect port (Some e)]. split; reflexivity.
  - destruct (Hk (log (Connect port None) st)) as (es & He & Hc).
    exists (Connect port None :: es). rewrite He. simpl.
    rewrite <- app_assoc. split; [reflexivity|exact Hc].
Qed.

Lemma closes_on_return_close (port : Z) : closes_on_return port (close port).
Proof.
  intros st. exists [Close port]. split; [reflexivity|].
  unfold Trace.closes. simpl. now rewrite Z.eqb_refl.
Qed.

Lemma closes_on_return_close_print (port : Z) (o : output) :
  closes_on_return port (bind (close port) (fun _ => print o)).
Proof.
  intros st. exists [Close port; Out o]. split.
  - unfold bind, close, print, emit, log. simpl. now rewrite <- app_assoc.
  - unfold Trace.closes. simpl. now rewrite Z.eqb_refl.
Qed.

Ltac closes_step port :=
  first
    [ apply closes_on_return_close_print
    | apply closes_on_return_close
    | apply EndRules.closes_on_return_bind; [|intros ?] ].

Lemma open_events (port : Z) (e : event) :
  Trace.is_close port e = false -> negb (Trace.is_close port e) = true.
Proof. now intros ->. Qed.

(** *** discover_schema.py *)

Lemma describe_closes_nothing (w : world) (port conn : Z) (t : string * string) :
  emits (fun e => negb (Trace.is_close port e) = true)
    (DiscoverSchema.describe w conn t).
Proof.
  destruct t as [schema table]. unfold DiscoverSchema.describe.
  repeat emits_step; reflexivity.
Qed.

Lemma discover_schema_closes_on_return (w : world) :
  closes_on_return 6543%Z (DiscoverSchema.main w).
Proof.
  unfold DiscoverSchema.main. apply closes_on_return_connect.
  repeat closes_step 6543%Z.
  all: repeat first [apply describe_closes_nothing | emits_step]; reflexivity.
Qed.

(** X10.  discover_schema.py closes its connection once when it runs to
    its end and not at all on a run that an exception ends: there is no
    handler and no [finally] around lines 13-56. *)
Theorem discover_schema_closes_iff_complete (w : world) :
  Trace.closes 6543%Z (run_script (DiscoverSchema.main w)).2 =
  if is_return (run_script (DiscoverSchema.main w)).1 then 1%nat else 0%nat.
Proof.
  unfold run_script.
  destruct (discover_schema_closes_on_return w initial) as (es & He & Hc).
  destruct (DiscoverSchema.main w initial) as [r st]. simpl in *.
  now rewrite He.
Qed.

(** *** find_crafting.py *)

Lemma emits_after_connect {B} (P : event -> Prop) (w : world) (port : Z)
    (k : Z -> M B) :
  P (Connect port (connect_fault w port)) ->
  emits P (k port) ->
  emits P (bind (connect w port) k).
Proof.
  intros Hp Hk st. unfold bind, connect.
  destruct (connect_fault w port) as [e|]; simpl.
  - exists [Connect port (Some e)]. auto.
  - destruct (Hk (log (Connect port None) st)) as (es & He & HP).
    exists (Connect port None :: es). rewrite He. simpl.
    rewrite <- app_assoc. auto.
Qed.

(** Neither an attempt on nor a close of port 6543. *)
Lemma search_leaves_6543_alone (w : world) :
  emits (fun e => negb (Trace.is_attempt 6543%Z e || Trace.is_close 6543%Z e) = true)
    (FindCrafting.search w).
Proof.
  unfold FindCrafting.search. apply emits_after_connect; [reflexivity|].
  repeat first
    [ apply (FindCraftingFacts.emits_show_row
               (fun e => negb (Trace.is_attempt 6543%Z e || Trace.is_close 6543%Z e)))
    | emits_step ]; intros; reflexivity.
Qed.

Lemma search_closes_on_return (w : world) :
  closes_on_return 5432%Z (FindCrafting.search w).
Proof.
  unfold FindCrafting.search. apply closes_on_return_connect.
  repeat closes_step 5432%Z.
  all: repeat first
         [ apply (FindCraftingFacts.emits_show_row
                    (fun e => negb (Trace.is_close 5432%Z e)))
         | emits_step ]; intros; reflexivity.
Qed.

Lemma alone_no_close (es : list event) :
  Forall (fun e => negb (Trace.is_attempt 6543%Z e || Trace.is_close 6543%Z e) = true) es ->
  Trace.closes 6543%Z es = 0%nat /\ Trace.attempted 6543%Z es = false.
Proof.
  intros H. split.
  - apply ReleaseFacts.closes_none. eapply List.Forall_impl; [|exact H].
    intros e He. apply negb_true_iff, orb_false_iff in He as [_ ->]. reflexivity.
  - apply FindCraftingFacts.not_attempted. eapply List.Forall_impl; [|exact H].
    intros e He. apply negb_true_iff, orb_false_iff in He as [-> _]. reflexivity.
Qed.

Lemma fallback_closes_nothing (w : world) (e : exn) (st : state) :
  exists evs,
    trace (FindCrafting.fallback w e st).2 = trace st ++ evs /\
    Trace.closes 5432%Z evs = 0%nat /\
    Trace.closes 6543%Z evs = 0%nat /\
    Trace.attempted 6543%Z evs = true.
Proof.
  unfold FindCrafting.fallback, try_except, bind, connect, print, emit, sys_exit.
  cbn [log trace issued pending fst snd].
  destruct (connect_fault w 6543%Z) as [e2|];
    cbn [log trace issued pending fst snd]; rewrite <- !app_assoc;
    eexists; (split; [reflexivity|]); repeat split.
Qed.

Lemma unexpected_run (e : exn) (st : state) :
  FindCrafting.unexpected e st =
    (Exit 1%Z,
     State (trace st ++ [Out (SayErr "Unexpected error: " e); Out (Traceback e)])
           (issued st) (pending st)).
Proof.
  unfold FindCrafting.unexpected, bind, print, emit, sys_exit, log.
  cbn [trace issued pending]. now rewrite <- app_assoc.
Qed.

(** X11.  find_crafting.py never closes a connection on port 6543.  On
    port 5432 it closes once exactly on the runs that return without
    having tried port 6543, that is, on the runs that reach line 64. *)
Theorem find_crafting_closes_only_when_complete (w : world) :
  Trace.closes 6543%Z (run_script (FindCrafting.main w)).2 = 0%nat /\
  Trace.closes 5432%Z (run_script (FindCrafting.main w)).2 =
    if Trace.attempted 6543%Z (run_script (FindCrafting.main w)).2 then 0%nat
    else if is_return (run_script (FindCrafting.main w)).1 then 1%nat
    else 0%nat.
Proof.
  unfold run_script, FindCrafting.main.
  change (bind (print ?o) ?k initial) with (k tt (log (Out o) initial)).
  cbv beta.
  set (st0 := log (Out (Say "Attempting to connect to Supabase...")) initial).
  assert (H0 : Trace.closes 6543%Z (trace st0) = 0%nat
               /\ Trace.closes 5432%Z (trace st0) = 0%nat
               /\ Trace.attempted 6543%Z (trace st0) = false)
    by (repeat split).
  destruct H0 as (H06 & H05 & H0a).
  unfold try_except.
  destruct (search_closes_on_return w st0) as (es & He & Hc).
  destruct (search_leaves_6543_alone w st0) as (es' & He' & HP).
  pose proof (FindCraftingRuns.no_exit_search w st0) as Hx.
  assert (es' = es) as ->.
  { rewrite He in He'. now apply app_inv_head in He'. }
  destruct (alone_no_close es HP) as [Hc6 Ha6].
  destruct (FindCrafting.search w st0) as [[[]|e|c] st'];
    cbn [fst snd is_return] in He, Hc |- *.
  - rewrite He, !ReleaseFacts.closes_app, FindCraftingRuns.attempted_app.
    rewrite H06, H05, H0a, Hc6, Ha6, Hc. split; reflexivity.
  - destruct e.
    1: { destruct (fallback_closes_nothing w OperationalError st')
           as (evs & Hev & Hf5 & Hf6 & Hfa).
         destruct (FindCrafting.fallback w OperationalError st') as [r st''].
         cbn [fst snd] in Hev |- *. rewrite Hev, He.
         rewrite !ReleaseFacts.closes_app, !FindCraftingRuns.attempted_app.
         rewrite H06, H05, Hc6, Hc, Hf5, Hf6, Hfa, orb_true_r.
         split; reflexivity. }
    all: rewrite unexpected_run; cbn [fst snd trace is_return]; rewrite He;
      rewrite !ReleaseFacts.closes_app, !FindCraftingRuns.attempted_app;
      rewrite H06, H05, H0a, Hc6, Ha6, Hc; split; reflexivity.
  - exfalso. now apply (Hx c).
Qed.

End CloseFacts.

(** ** discover_schema.py: the complete run *)

Module DiscoverSchemaRuns.
Import DiscoverSchema.

Lemma lines_print {A} (xs : list A) (line : A -> string) :
  prints_only (for_each xs (fun x => print (Say (line x)))) tt
    (map (fun x => Out (Say (line x))) xs).
Proof.
  replace (map (fun x => Out (Say (line x))) xs)
    with (flat_map (fun x => [Out (Say (line x))]) xs)
    by (induction xs; simpl; congruence).
  apply EndRules.prints_only_for_each. intros x _.
  apply EndRules.prints_only_emit.
Qed.

Lemma describe_run (w : world) (conn : Z) (t : string * string) (st : state) :
  statement_fault w (issued st) = None ->
  exists st',
    describe w conn t st = (Return tt, st') /\
    trace st' = trace st ++ Runs.describe_lines (store w) conn t /\
    issued st' = S (issued st).
Proof.
  intros Hf. destruct t as [schema table]. unfold describe.
  unfold bind at 1. unfold print at 1, emit at 1.
  unfold bind at 1.
  erewrite SampleDataClaims.execute_ok;
    [|exact Hf|apply SqlFacts.run_list_columns].
  unfold bind at 1. unfold fetchall_columns at 1. cbn [pending].
  rewrite (lines_print _ column_line).
  eexists. split; [reflexivity|]. cbn [trace issued log]. split; [|reflexivity].
  unfold Runs.describe_lines. cbn [fst snd].
  rewrite map_map, <- !app_assoc. reflexivity.
Qed.

Lemma describe_all_run (w : world) (conn : Z) (ts : list (string * string)) :
  (forall n, statement_fault w n = None) ->
  forall st, exists st',
    for_each ts (describe w conn) st = (Return tt, st') /\
    trace st' = trace st ++ flat_map (Runs.describe_lines (store w) conn) ts.
Proof.
  intros Hf. induction ts as [|t ts IH]; intros st.
  - exists st. simpl. now rewrite app_nil_r.
  - simpl for_each. unfold bind at 1.
    destruct (describe_run w conn t st (Hf _)) as (st1 & -> & Ht1 & _).
    destruct (IH st1) as (st' & -> & Ht').
    exists st'. split; [reflexivity|].
    rewrite Ht', Ht1. simpl. now rewrite <- app_assoc.
Qed.

Lemma discover_schema_complete_run (w : world) :
  connect_fault w 6543%Z = None ->
  (forall n, statement_fault w n = None) ->
  run_script (main w) = (Return tt, Runs.discover_schema_run (store w)).
Proof.
  intros Hc Hf. unfold run_script, main.
  unfold bind at 1. unfold connect at 1. rewrite Hc.
  unfold bind at 1. unfold cursor at 1, emit at 1.
  unfold bind at 1. unfold print at 1, emit at 1.
  unfold bind at 1.
  erewrite SampleDataClaims.execute_ok; [|apply Hf|apply SqlFacts.run_list_tables].
  unfold bind at 1. unfold fetchall_tables at 1. cbn [pending].
  fold (Runs.listed (store w)).
  unfold bind at 1.
  rewrite (lines_print _ (fun t : string * string => (t.1 ++ "." ++ t.2)%string)).
  unfold bind at 1. unfold print at 1, emit at 1.
  unfold bind at 1.
  match goal with
  | |- context [for_each ?ts (describe w ?c) ?st] =>
      destruct (describe_all_run w c ts Hf st) as (st' & -> & Ht)
  end.
  unfold bind, cursor_close, close, print, emit, log. cbn [fst snd trace].
  rewrite Ht. cbn [trace log].
  unfold Runs.discover_schema_run. rewrite <- !app_assoc. reflexivity.
Qed.

Lemma describe_lines_statements (db : database) (conn : Z)
    (ts : list (string * string)) :
  Trace.statements (flat_map (Runs.describe_lines db conn) ts) =
  map (fun t => (Sql.list_columns, [t.1; t.2])) ts.
Proof.
  induction ts as [|t ts IH]; [reflexivity|].
  cbn [flat_map map]. rewrite SampleDataComplete.statements_app, IH.
  unfold Runs.describe_lines. cbn [app Trace.statements flat_map].
  rewrite FindCraftingRuns.outputs_no_statement; [reflexivity|].
  induction (Sql.select_columns db t.1 t.2); simpl; constructor; auto.
Qed.

(** X12.  When the store answers every request, discover_schema.py
    issues the table listing once and then the column listing once per
    listed table, with that table's schema and name as parameters and in
    the order of the listing; every column of every listed table gets its
    line. *)
Theorem discover_schema_describes_listed_tables (w : world) :
  connect_fault w 6543%Z = None ->
  (forall n, statement_fault w n = None) ->
  (run_script (main w)).1 = Return tt /\
  Trace.statements (run_script (main w)).2 =
    (Sql.list_tables, [])
      :: map (fun t => (Sql.list_columns, [table_schema t; table_name t]))
           (Sql.select_tables (store w)) /\
  (forall t, In t (Sql.select_tables (store w)) ->
     forall c, In c (Sql.select_columns (store w) (table_schema t) (table_name t)) ->
       In (Out (Say (column_line (Sql.column_row c)))) (run_script (main w)).2).
Proof.
  intros Hc Hf. rewrite (discover_schema_complete_run w Hc Hf).
  cbn [fst snd]. split; [reflexivity|]. split.
  - unfold Runs.discover_schema_run.
    rewrite !SampleDataComplete.statements_app, describe_lines_statements.
    rewrite (FindCraftingRuns.outputs_no_statement
               (map (fun t => Out (Say (t.1 ++ "." ++ t.2))) (Runs.listed (store w))))
      by (induction (Runs.listed (store w)); simpl; constructor; auto).
    unfold Runs.listed. rewrite map_map. simpl. now rewrite app_nil_r.
  - intros t Ht c Hcol. unfold Runs.discover_schema_run.
    rewrite !in_app_iff. right. right. right. left.
    apply in_flat_map. exists (Sql.table_row t). split.
    + unfold Runs.listed. now apply in_map.
    + unfold Runs.describe_lines. simpl. right. right.
      apply in_map_iff. eauto.
Qed.

Lemma discover_schema_describes_listed_tables_witness :
  connect_fault (World (fun _ => None) Examples.catalog (fun _ => None)) 6543%Z
    = None /\
  Trace.statements
    (run_script (main (World (fun _ => None) Examples.catalog (fun _ => None)))).2
  = [ (Sql.list_tables, []);
      (Sql.list_columns, ["auth"; "schema_migrations"]);
      (Sql.list_columns, ["pg_temp_3"; "scratch"]);
      (Sql.list_columns, ["public"; "codex"]) ].
Proof.
  split; [reflexivity|].
  exact (proj1 (proj2 (discover_schema_describes_listed_tables
                         (World (fun _ => None) Examples.catalog (fun _ => None))
                         eq_refl (fun n => eq_refl)))).
Defined.

End DiscoverSchemaRuns.

(** ** sample_data_api.py: the branches of a run *)

Module ApiRuns.
Import SampleDataApi.

Section Branches.
Variable gateway : string -> response.

Lemma get_run (url : string) (k : response -> M unit) (st : state) :
  bind (get gateway url) k st = k (gateway url) (log (HttpGet url) st).
Proof. reflexivity. Qed.

Lemma api_records_print (data : list api_row) :
  prints_only (for_each data show_record) tt (flat_map Runs.api_record_lines data).
Proof.
  apply EndRules.prints_only_for_each. intros r _ st.
  unfold show_record, bind, print, emit, log, Runs.api_record_lines. simpl.
  now rewrite <- !app_assoc.
Qed.

(** The script up to the branch on the sample response. *)
Lemma main_prefix :
  main gateway initial =
  (if (status_code (gateway Runs.sample_url) =? 200)%nat then
     data <- json_of (gateway Runs.sample_url) ;;
     print (SayNum (Str.nl ++ "Total records fetched: ") (length data) Str.nl) ;;
     print (Say "Sample Records:") ;;
     for_each data show_record ;;
     unique_sections gateway
   else
     print (SayNum "Error: " (status_code (gateway Runs.sample_url)) "") ;;
     print (Say (text (gateway Runs.sample_url))))%script
    (State (Runs.api_prefix gateway) 0 None).
Proof. reflexivity. Qed.

(** The script up to the branch on the section response. *)
Lemma main_to_sections (data : list api_row) :
  (status_code (gateway Runs.sample_url) =? 200)%nat = true ->
  json_body (gateway Runs.sample_url) = Some data ->
  main gateway initial =
  (if (status_code (gateway Runs.section_url) =? 200)%nat then
     all_records <- json_of (gateway Runs.section_url) ;;
     print (Say (Str.nl ++ Str.nl ++ "Unique Sections:")) ;;
     items <- sorted_items (tally all_records) ;;
     for_each items (fun item =>
       print (SayNum (str (fst item) ++ ": ") (snd item) " entries"))
   else ret tt)%script
    (State (Runs.api_prefix gateway ++ Runs.api_sample data) 0 None).
Proof.
  intros Hs Hb. rewrite main_prefix, Hs.
  unfold json_of at 1. rewrite Hb.
  unfold bind at 1. unfold ret at 1.
  unfold bind at 1. unfold print at 1, emit at 1.
  unfold bind at 1. unfold print at 1, emit at 1.
  unfold bind at 1. rewrite api_records_print.
  unfold unique_sections. rewrite get_run.
  unfold Runs.api_sample, log. cbn [trace issued pending].
  rewrite <- !app_assoc. reflexivity.
Qed.

Lemma sections_branch_extends (st : state) :
  exists es,
    trace
      ((if (status_code (gateway Runs.section_url) =? 200)%nat then
          all_records <- json_of (gateway Runs.section_url) ;;
          print (Say (Str.nl ++ Str.nl ++ "Unique Sections:")) ;;
          items <- sorted_items (tally all_records) ;;
          for_each items (fun item =>
            print (SayNum (str (fst item) ++ ": ") (snd item) " entries"))
        else ret tt)%script st).2 = trace st ++ es.
Proof.
  match goal with
  | |- exists es, trace (?m st).2 = _ =>
      assert (Hm : emits (fun _ => True) m)
  end.
  { destruct (status_code _ =? 200)%nat; [|emits_step].
    unfold json_of, sorted_items.
    repeat first
      [ emits_step
      | match goal with
        | |- emits _ (match ?x with _ => _ end) => destruct x
        | |- emits _ (if ?x then _ else _) => destruct x
        end ]; auto. }
  destruct (Hm st) as (es & He & _). eauto.
Qed.

(** X13.  sample_data_api.py checks the status of the sample request
    only.  On a status other than 200 it prints the status and the body
    and stops; on a body that is not JSON it ends with the decoder's
    ValueError before printing anything further; otherwise it goes on to
    print the records and to request the sections. *)
Theorem api_sample_failure_stops :
  match (status_code (gateway Runs.sample_url) =? 200)%nat,
        json_body (gateway Runs.sample_url) with
  | false, _ =>
      run_script (main gateway) =
        (Return tt,
         Runs.api_prefix gateway
         ++ [ Out (SayNum "Error: " (status_code (gateway Runs.sample_url)) "");
              Out (Say (text (gateway Runs.sample_url))) ])
  | true, None =>
      run_script (main gateway) = (Raise ValueError, Runs.api_prefix gateway)
  | true, Some data =>
      exists es,
        (run_script (main gateway)).2 =
          Runs.api_prefix gateway ++ Runs.api_sample data ++ es
  end.
Proof.
  unfold run_script.
  destruct (status_code (gateway Runs.sample_url) =? 200)%nat eqn:Hs.
  - destruct (json_body (gateway Runs.sample_url)) as [data|] eqn:Hb.
    + rewrite (main_to_sections data Hs Hb).
      match goal with
      | |- context [?m (State ?t ?i ?p)] =>
          destruct (sections_branch_extends (State t i p)) as (es & He);
          destruct (m (State t i p)) as [r st']
      end.
      exists es. cbn [fst snd trace] in He |- *.
      rewrite He. now rewrite <- app_assoc.
    + rewrite main_prefix, Hs. unfold bind at 1. unfold json_of.
      rewrite Hb. reflexivity.
  - rewrite main_prefix, Hs. unfold bind, print, emit, log.
    cbn [trace issued pending]. now rewrite <- app_assoc.
Qed.

(** X14.  When the section request of sample_data_api.py comes back
    with a status other than 200 the script ends normally right after the
    request: line 48 has no [else], so nothing reports the failure. *)
Theorem api_section_failure_is_silent (data : list api_row) :
  (status_code (gateway Runs.sample_url) =? 200)%nat = true ->
  json_body (gateway Runs.sample_url) = Some data ->
  (status_code (gateway Runs.section_url) =? 200)%nat = false ->
  run_script (main gateway) =
    (Return tt, Runs.api_prefix gateway ++ Runs.api_sample data).
Proof.
  intros Hs Hb H3. unfold run_script.
  rewrite (main_to_sections data Hs Hb), H3. reflexivity.
Qed.

(** A section that occurs among the records has an entry in the tally. *)
Lemma tally_member (r : api_row) (records : list api_row) :
  In r records -> is_Some (tally records !! api_section r).
Proof.
  intros Hin. rewrite ApiFacts.tally_spec.
  destruct (List.filter _ records) as [|x l] eqn:Hl; cbn [length]; [|eauto].
  exfalso.
  assert (Hr : In r []); [|exact Hr].
  rewrite <- Hl. apply List.filter_In. split; [exact Hin|].
  now apply bool_decide_eq_true_2.
Qed.

(** A section that no record carries has no entry in the tally. *)
Lemma tally_absent (records : list api_row) (k : option string) :
  (forall r, In r records -> api_section r <> k) -> tally records !! k = None.
Proof.
  intros Hall. rewrite ApiFacts.tally_spec.
  destruct (List.filter _ records) as [|r l] eqn:Hf; [reflexivity|].
  exfalso.
  assert (Hin : In r (r :: l)) by now left.
  rewrite <- Hf in Hin. apply List.filter_In in Hin as [Hin Hr].
  apply bool_decide_eq_true_1 in Hr. exact (Hall r Hin Hr).
Qed.

(** X15.  When the section response holds a record without a section
    beside a record with one, sample_data_api.py prints the heading and
    then ends with a TypeError: [sorted] of line 57 compares [None] with
    a string.  No section line is printed. *)
Theorem api_missing_section_raises (data records : list api_row) :
  (status_code (gateway Runs.sample_url) =? 200)%nat = true ->
  json_body (gateway Runs.sample_url) = Some data ->
  (status_code (gateway Runs.section_url) =? 200)%nat = true ->
  json_body (gateway Runs.section_url) = Some records ->
  (exists r, In r records /\ api_section r = None) ->
  (exists r, In r records /\ api_section r <> None) ->
  run_script (main gateway) =
    (Raise TypeError,
     Runs.api_prefix gateway ++ Runs.api_sample data
     ++ [Out (Say (Str.nl ++ Str.nl ++ "Unique Sections:"))]).
Proof.
  intros Hs Hb H3 Hb3 (r1 & Hin1 & Hn1) (r2 & Hin2 & Hn2). unfold run_script.
  rewrite (main_to_sections data Hs Hb), H3.
  unfold json_of. rewrite Hb3.
  unfold bind at 1. unfold ret at 1.
  unfold bind at 1. unfold print at 1, emit at 1.
  unfold bind at 1. unfold sorted_items.
  assert (H1 : is_Some (tally records !! None)).
  { rewrite <- Hn1. now apply tally_member. }
  assert (H2 : is_Some (tally records !! api_section r2)).
  { now apply tally_member. }
  rewrite bool_decide_eq_true_2 by exact H1.
  assert (Hsz : (2 <=? length (map_to_list (tally records)))%nat = true).
  { apply Nat.leb_le. rewrite length_map_to_list.
    destruct H1 as [n1 H1], H2 as [n2 H2].
    rewrite <- (insert_id _ _ _ H1), <- (insert_delete_eq (tally records)).
    rewrite map_size_insert_None by apply lookup_delete_eq.
    assert (Hd : delete None (tally records) !! api_section r2 = Some n2).
    { rewrite lookup_delete_ne by congruence. exact H2. }
    rewrite <- (insert_id _ _ _ Hd), <- (insert_delete_eq (delete None _)).
    rewrite map_size_insert_None by apply lookup_delete_eq. lia. }
  rewrite Hsz. reflexivity.
Qed.

Lemma section_lines_print (items : list (option string * nat)) :
  prints_only
    (for_each items (fun item =>
       print (SayNum (str (fst item) ++ ": ") (snd item) " entries")))
    tt
    (map (fun item => Out (SayNum (str item.1 ++ ": ") item.2 " entries")) items).
Proof.
  replace (map (fun item => Out (SayNum (str item.1 ++ ": ") item.2 " entries")) items)
    with (flat_map (fun item : option string * nat =>
                      [Out (SayNum (str item.1 ++ ": ") item.2 " entries")]) items)
    by (induction items; simpl; congruence).
  apply EndRules.prints_only_for_each. intros x _.
  apply EndRules.prints_only_emit.
Qed.

Lemma api_complete_run (data records : list api_row) :
  (status_code (gateway Runs.sample_url) =? 200)%nat = true ->
  json_body (gateway Runs.sample_url) = Some data ->
  (status_code (gateway Runs.section_url) =? 200)%nat = true ->
  json_body (gateway Runs.section_url) = Some records ->
  (forall r, In r records -> api_section r <> None) ->
  run_script (main gateway) =
    (Return tt,
     Runs.api_prefix gateway ++ Runs.api_sample data ++ Runs.api_sections records).
Proof.
  intros Hs Hb H3 Hb3 Hall. unfold run_script.
  rewrite (main_to_sections data Hs Hb), H3.
  unfold json_of. rewrite Hb3.
  unfold bind at 1. unfold ret at 1.
  unfold bind at 1. unfold print at 1, emit at 1.
  unfold bind at 1. unfold sorted_items.
  assert (Hn : tally records !! None = None) by now apply tally_absent.
  rewrite bool_decide_eq_false_2 by (rewrite Hn; apply is_Some_None).
  cbn [andb]. unfold ret at 1. rewrite section_lines_print.
  unfold Runs.api_sections, log. cbn [trace fst snd].
  rewrite <- !app_assoc. reflexivity.
Qed.

End Branches.

(** *** The tally *)

Lemma tally_insert_sum (m : gmap (option string) nat) (k : option string) :
  sum_list_with snd (map_to_list (<[k := default 0 (m !! k) + 1]> m)) =
  (sum_list_with snd (map_to_list m) + 1)%nat.
Proof.
  destruct (m !! k) as [v|] eqn:Hk; simpl.
  - rewrite <- insert_delete_eq.
    rewrite map_to_list_insert by apply lookup_delete_eq.
    rewrite <- (map_to_list_delete m k v Hk). simpl. lia.
  - rewrite map_to_list_insert by exact Hk. simpl. lia.
Qed.

Lemma tally_fold_sum (records : list api_row) :
  forall acc : gmap (option string) nat,
    sum_list_with snd
      (map_to_list
         (foldl (fun sections record =>
                   let section := api_section record in
                   <[section := default 0 (sections !! section) + 1]> sections)
                acc records)) =
    (sum_list_with snd (map_to_list acc) + length records)%nat.
Proof.
  induction records as [|r records IH]; intros acc; simpl; [lia|].
  rewrite IH, tally_insert_sum. lia.
Qed.

(** The counts of the tally add up to the number of records. *)
Lemma tally_total (records : list api_row) :
  sum_list_with snd (map_to_list (tally records)) = length records.
Proof.
  unfold tally. rewrite tally_fold_sum, map_to_list_empty. reflexivity.
Qed.

Lemma entries_section_lines (items : list (option string * nat)) :
  Runs.entries
    (map (fun item => Out (SayNum (str item.1 ++ ": ") item.2 " entries")) items)
  = map snd items.
Proof. induction items as [|i items IH]; simpl; [reflexivity|]. now rewrite IH. Qed.

Lemma entries_api_records (data : list api_row) :
  Runs.entries (flat_map Runs.api_record_lines data) = [].
Proof. induction data; simpl; auto. Qed.

Lemma entries_api_prefix (gateway : string -> response) :
  Runs.entries (Runs.api_prefix gateway) = [].
Proof. reflexivity. Qed.

Lemma entries_api_sample (data : list api_row) :
  Runs.entries (Runs.api_sample data) = [].
Proof.
  unfold Runs.api_sample. rewrite !SampleDataComplete.entries_app.
  rewrite entries_api_records. reflexivity.
Qed.

Lemma entries_api_sections (records : list api_row) :
  Runs.entries (Runs.api_sections records) =
  map snd (Sql.order_by item_le (map_to_list (tally records))).
Proof.
  unfold Runs.api_sections.
  change (Out ?e :: ?l) with ([Out e] ++ l).
  rewrite SampleDataComplete.entries_app, entries_section_lines. reflexivity.
Qed.

(** X16.  When every record of the section response carries a section,
    sample_data_api.py returns normally, prints for each section that
    occurs a line with the number of records that carry it, and the
    printed counts add up to the number of records. *)
Theorem api_tally_is_exact (gateway : string -> response)
    (data records : list api_row) :
  (status_code (gateway Runs.sample_url) =? 200)%nat = true ->
  json_body (gateway Runs.sample_url) = Some data ->
  (status_code (gateway Runs.section_url) =? 200)%nat = true ->
  json_body (gateway Runs.section_url) = Some records ->
  (forall r, In r records -> api_section r <> None) ->
  (run_script (main gateway)).1 = Return tt /\
  sum_list (Runs.entries (run_script (main gateway)).2) = length records /\
  (forall s r, In r records -> api_section r = Some s ->
     In (Out (SayNum (s ++ ": ")
                (length (List.filter
                           (fun r' => bool_decide (api_section r' = Some s))
                           records))
                " entries"))
        (run_script (main gateway)).2).
Proof.
  intros Hs Hb H3 Hb3 Hall.
  rewrite (api_complete_run gateway data records Hs Hb H3 Hb3 Hall).
  cbn [fst snd]. split; [reflexivity|].
  set (items := Sql.order_by item_le (map_to_list (tally records))).
  assert (Hp : Permutation items (map_to_list (tally records)))
    by apply OrderBy.order_by_perm.
  split.
  - rewrite !SampleDataComplete.entries_app.
    rewrite entries_api_prefix, entries_api_sample, entries_api_sections.
    fold items. cbn [app].
    rewrite <- (tally_total records), <- Hp.
    clear. induction items; simpl; congruence.
  - intros s r Hin Hsec. unfold Runs.api_sections. fold items.
    rewrite !in_app_iff. right. right. right.
    apply in_map_iff.
    exists (Some s, length (List.filter
                              (fun r' => bool_decide (api_section r' = Some s))
                              records)).
    split; [reflexivity|].
    apply (Permutation_in _ (Permutation_sym Hp)), list_elem_of_In.
    apply elem_of_map_to_list. rewrite ApiFacts.tally_spec.
    destruct (length _) eqn:Hl; [|reflexivity]. exfalso.
    apply length_zero_iff_nil in Hl.
    assert (Hf : In r (List.filter
                         (fun r' => bool_decide (api_section r' = Some s)) records)).
    { apply filter_In. split; [exact Hin|]. now apply bool_decide_eq_true_2. }
    rewrite Hl in Hf. exact Hf.
Qed.

(** A gateway whose section request fails with status 500. *)
Lemma api_section_failure_is_silent_witness :
  (status_code (ApiExamples.sections_down Runs.section_url) =? 200)%nat = false /\
  run_script (main ApiExamples.sections_down) =
    (Return tt,
     Runs.api_prefix ApiExamples.sections_down
     ++ Runs.api_sample [ApiExamples.ingot]).
Proof.
  split; [reflexivity|].
  exact (api_section_failure_is_silent ApiExamples.sections_down
           [ApiExamples.ingot] eq_refl eq_refl eq_refl).
Defined.

(** One record of section items and one record without a section. *)
Lemma api_missing_section_raises_witness :
  json_body (ApiExamples.mixed Runs.section_url)
    = Some [ApiExamples.ingot; ApiExamples.untagged] /\
  (run_script (main ApiExamples.mixed)).1 = Raise TypeError.
Proof.
  split; [reflexivity|].
  refine (f_equal fst
            (api_missing_section_raises ApiExamples.mixed [ApiExamples.ingot]
               [ApiExamples.ingot; ApiExamples.untagged]
               eq_refl eq_refl eq_refl eq_refl _ _)).
  - exists ApiExamples.untagged. split; [right; left|]; reflexivity.
  - exists ApiExamples.ingot. split; [left; reflexivity|discriminate].
Defined.

(** Two records of section items and one of section npcs. *)
Lemma api_tally_is_exact_witness :
  json_body (ApiExamples.two_sections Runs.section_url)
    = Some [ApiExamples.ingot; ApiExamples.guard; ApiExamples.ingot] /\
  sum_list (Runs.entries (run_script (main ApiExamples.two_sections)).2) = 3%nat.
Proof.
  split; [reflexivity|].
  refine (proj1 (proj2
            (api_tally_is_exact ApiExamples.two_sections [ApiExamples.ingot]
               [ApiExamples.ingot; ApiExamples.guard; ApiExamples.ingot]
               eq_refl eq_refl eq_refl eq_refl _))).
  intros r [<-|[<-|[<-|[]]]]; discriminate.
Defined.

End ApiRuns.

(** ** find_crafting.py: the keyword test on member names *)

Module KeywordFacts.
Import FindCrafting.






End KeywordFacts.

(** ** find_crafting.py: which rows the tag search reports *)

Module TagSearchRuns.
Import FindCrafting.





End TagSearchRuns.

(** ** discover_schema.py: the two listings *)

Module CatalogRuns.
Import DiscoverSchema.

(** The start of a complete run: the table listing, as fetched. *)
Lemma table_listing_run (w : world) :
  connect_fault w 6543%Z = None ->
  (forall n, statement_fault w n = None) ->
  exists rest,
    (run_script (main w)).2 =
      [ Connect 6543%Z None;
        OpenCursor 6543%Z;
        Out (Say "TABLES IN DATABASE");
        Execute 6543%Z Sql.list_tables [] ]
      ++ map (fun t => Out (Say (table_schema t ++ "." ++ table_name t)))
           (Sql.select_tables (store w))
      ++ Out (Say "TABLE SCHEMAS") :: rest.
Proof.
  intros Hc Hf.
  rewrite (DiscoverSchemaRuns.discover_schema_complete_run w Hc Hf).
  cbn [snd]. unfold Runs.discover_schema_run, Runs.listed.
  rewrite map_map. eexists. reflexivity.
Qed.

(** C9 (amended).  The statement of discover_schema.py lists exactly the
    catalog rows whose schema is neither pg_catalog nor
    information_schema, in ascending order of (schema, table), and the
    same rows in the same order for any two catalogs with the same rows;
    a complete run prints that listing, one line per row, in that
    order. *)
Theorem table_listing_filter_and_order (db : database) :
  Sql.run db Sql.list_tables [] =
    inr (TableRows (map Sql.table_row (Sql.select_tables db))) /\
  (forall t,
      In t (Sql.select_tables db) <->
      In t (tables db) /\
      table_schema t <> "pg_catalog" /\ table_schema t <> "information_schema") /\
  StronglySorted (Sql.le_prop Sql.table_le) (Sql.select_tables db) /\
  (forall db',
      Permutation (tables db) (tables db') ->
      Sql.select_tables db' = Sql.select_tables db) /\
  (forall w,
      store w = db ->
      connect_fault w 6543%Z = None ->
      (forall n, statement_fault w n = None) ->
      (run_script (main w)).1 = Return tt /\
      exists rest,
        (run_script (main w)).2 =
          [ Connect 6543%Z None;
            OpenCursor 6543%Z;
            Out (Say "TABLES IN DATABASE");
            Execute 6543%Z Sql.list_tables [] ]
          ++ map (fun t => Out (Say (table_schema t ++ "." ++ table_name t)))
               (Sql.select_tables db)
          ++ Out (Say "TABLE SCHEMAS") :: rest).
Proof.
  destruct (CatalogFacts.select_tables_filter_and_order db)
    as (H1 & H2 & H3 & H4).
  split; [exact H1|]. split; [exact H2|]. split; [exact H3|].
  split; [exact H4|].
  intros w <- Hc Hf. split.
  - now rewrite (DiscoverSchemaRuns.discover_schema_complete_run w Hc Hf).
  - now apply table_listing_run.
Qed.

(** Two catalogs that hold the same rows in a different order. *)
Lemma table_listing_filter_and_order_witness :
  Permutation (tables Examples.catalog) (tables Examples.catalog_shuffled) /\
  Sql.select_tables Examples.catalog_shuffled = Sql.select_tables Examples.catalog.
Proof.
  assert (Hp : Permutation (tables Examples.catalog)
                           (tables Examples.catalog_shuffled)).
  { simpl. eapply perm_trans; [apply perm_swap|].
    do 2 apply perm_skip. apply perm_swap. }
  split; [exact Hp|].
  exact (proj1 (proj2 (proj2 (proj2
           (table_listing_filter_and_order Examples.catalog))))
           Examples.catalog_shuffled Hp).
Defined.

(** A temporary table, whose schema lies in the name space PostgreSQL
    reserves, and a bookkeeping table of the hosting platform are fetched
    and printed with the user table. *)
Lemma system_schema_is_listed :
  system_schema "pg_temp_3" = true /\
  Sql.select_tables Examples.catalog =
    [ TableEntry "auth" "schema_migrations";
      TableEntry "pg_temp_3" "scratch";
      TableEntry "public" "codex" ] /\
  (run_script (main (World (fun _ => None) Examples.catalog (fun _ => None)))).1
    = Return tt /\
  In (Out (Say "pg_temp_3.scratch"))
     (run_script (main (World (fun _ => None) Examples.catalog (fun _ => None)))).2 /\
  In (Out (Say "auth.schema_migrations"))
     (run_script (main (World (fun _ => None) Examples.catalog (fun _ => None)))).2.
Proof.
  split; [reflexivity|]. split; [reflexivity|]. split; [reflexivity|].
  split; simpl; tauto.
Qed.





End CatalogRuns.

(** ** The section counts of sample_data.py and sample_data_api.py *)

Module SectionCounts.



(** *** sample_data.py *)




(** *** sample_data_api.py *)











End SectionCounts.
